(** * MaskHintRCNN: orchestration of the mask-hint refinement detector

    Shallow embedding of [mmdet/models/detectors/mask_scoring_rcnn_MH.py]
    (class [MaskHintRCNN]): [forward_train], [simple_test_mask],
    [refine_test_bboxes] and [simple_test].

    Tensor elements are IEEE-754 binary32 values ([spec_float] of the
    standard library, whose comparisons follow the IEEE rules for NaN,
    infinities and signed zeros); a number of the configuration is a
    Python float, a binary64 value, that a comparison with a tensor rounds
    to binary32.  Heads, RoI extractors, the assigner and
    the sampler are external collaborators: they are fields of a record and
    are taken as total functions.  What the orchestrator itself can raise
    (attribute lookups in the configuration, unbound local variables, bad
    indices, a call that misses a required argument) is modelled in an
    exception monad that also logs every collaborator call. *)

From Stdlib Require Import ZArith Lia.
From Stdlib Require Import Floats.SpecFloat.
From stdpp Require Import base option list strings gmap.

Set Warnings "-register-all,-clear-no-such-hyp".

(* ===================================================================== *)
(** ** Binary32 values and their comparisons *)
(* ===================================================================== *)

Module Float32.

(** A tensor element.  [S754_finite s m e] is [(-1)^s * m * 2^e]; for
    binary32 the mantissa [m] of a normal number has 24 bits. *)
Definition f32 : Type := spec_float.

(** [False.float()] *)
Definition zero : f32 := S754_zero false.
(** [True.float()]: 1.0 = 2^23 * 2^-23 *)
Definition one : f32 := S754_finite false 8388608 (-23)%Z.
(** 0.5 = 2^23 * 2^-24 *)
Definition half : f32 := S754_finite false 8388608 (-24)%Z.
(** 0.75 = 3 * 2^22 * 2^-24 *)
Definition three_quarters : f32 := S754_finite false 12582912 (-24)%Z.

(** [a >= b] and [a > b] on tensor elements *)
Definition geb (a b : f32) : bool := SFleb b a.
Definition gtb (a b : f32) : bool := SFltb b a.
(** [a == b] *)
Definition eqb (a b : f32) : bool := SFeqb a b.

(** [bool_tensor.float()] on one element *)
Definition of_bool (b : bool) : f32 := if b then one else zero.

(** A Python float, as a configuration holds it: a binary64 value. *)
Definition f64 : Type := spec_float.

(** The value of a Python float in a comparison with a float32 tensor: the
    scalar is converted to the element type of the tensor, that is rounded
    to binary32 (to nearest, ties to even). *)
Definition of_float (v : f64) : f32 :=
  match v with
  | S754_finite s m e => binary_round 24 128 s m e
  | _ => v
  end.

#[global] Instance f32_eq_dec : EqDecision f32.
Proof. solve_decision. Defined.

End Float32.
Import Float32.

(* ===================================================================== *)
(** ** Rank-4 tensors (regions x channels x height x width) *)
(* ===================================================================== *)

Definition Tensor1 : Type := list f32.
Definition Tensor2 : Type := list (list f32).
Definition Tensor3 : Type := list (list (list f32)).
Definition Tensor4 : Type := list (list (list (list f32))).

(** Elementwise map over a rank-4 tensor. *)
Definition tmap4 (f : f32 -> f32) (t : Tensor4) : Tensor4 :=
  map (map (map (map f))) t.

(** [t[:, 1:, :, :]]: every region loses its channel 0 (the background). *)
Definition drop_background (t : Tensor4) : Tensor4 := map (drop 1) t.

(** [(t >= thr).float()], the binarization of [forward_train] (line 168). *)
Definition binarize_ge (thr : f32) (t : Tensor4) : Tensor4 :=
  tmap4 (fun v => of_bool (geb v thr)) t.

(** [(t > thr).float()], the binarization of [refine_test_bboxes] (line 249). *)
Definition binarize_gt (thr : f32) (t : Tensor4) : Tensor4 :=
  tmap4 (fun v => of_bool (gtb v thr)) t.

(** All the elements of a tensor satisfy [P]. *)
Definition all4 (P : f32 -> Prop) (t : Tensor4) : Prop :=
  Forall (Forall (Forall (Forall P))) t.

(** A hard foreground indicator: only the values 0.0 and 1.0. *)
Definition is_hard (v : f32) : Prop := v = zero \/ v = one.
Definition hard_mask (t : Tensor4) : Prop := all4 is_hard t.

(* ===================================================================== *)
(** ** Python exceptions and the configuration tree *)
(* ===================================================================== *)

Inductive PyErr : Type :=
| AttributeError (name : string)
| UnboundLocalError (var : string)
| TypeError (msg : string)
| IndexError (msg : string)
| RuntimeError (msg : string)
| AssertionError (msg : string).

(** The outcome of a statement: an exception or a value. *)
Definition Exc (A : Type) : Type := PyErr + A.

(** An mmcv [Config] node: attribute access on a dictionary node looks the
    key up and raises [AttributeError] when it is missing. *)
Inductive Cfg : Type :=
| CfgNone
| CfgFloat (v : f64)
| CfgStr (s : string)
| CfgDict (items : list (string * Cfg)).

Fixpoint assoc (k : string) (items : list (string * Cfg)) : option Cfg :=
  match items with
  | [] => None
  | (k', v) :: rest => if String.eqb k k' then Some v else assoc k rest
  end.

(** [cfg.k] *)
Definition getattr (c : Cfg) (k : string) : Exc Cfg :=
  match c with
  | CfgDict items =>
      match assoc k items with
      | Some v => inr v
      | None => inl (AttributeError k)
      end
  | _ => inl (AttributeError k)
  end.

(** [cfg.get(k, default)] *)
Definition cfg_get (c : Cfg) (k : string) (default : Cfg) : Exc Cfg :=
  match c with
  | CfgDict items => inr (from_option id default (assoc k items))
  | _ => inl (AttributeError "get")
  end.

(** [v == s] for a string literal [s]: values of another type are unequal. *)
Definition cfg_eq_str (v : Cfg) (s : string) : bool :=
  match v with
  | CfgStr s' => String.eqb s' s
  | _ => false
  end.

(** The scalar of a comparison [tensor >= v] / [tensor > v] with a float32
    tensor: the configured number, as a binary32 value. *)
Definition as_scalar (v : Cfg) : Exc f32 :=
  match v with
  | CfgFloat f => inr (of_float f)
  | _ => inl (TypeError "comparison of a Tensor with a non-numeric value")
  end.

(* ===================================================================== *)
(** ** Data exchanged with the collaborators *)
(* ===================================================================== *)

(** Boxes of one image: one row per box (4 coordinates, 5 with a score). *)
Definition Boxes : Type := Tensor2.
(** RoIs: one row per region, image index followed by 4 coordinates. *)
Definition Rois : Type := Tensor2.
Definition Labels : Type := list Z.
(** The feature pyramid: one rank-4 map per level. *)
Definition Pyramid : Type := list Tensor4.
(** Ground-truth masks of the batch. *)
Definition GtMasks : Type := list Tensor3.
(** A loss mapping: loss name to loss value. *)
Abbreviation LossDict := (gmap string Tensor1).
(** Per-class segmentation result: one list of encoded masks per class. *)
Definition SegmResult : Type := list (list Tensor2).
(** Per-class detection result. *)
Definition BboxResult : Type := list Boxes.

Record ImgMeta : Type := {
  ori_shape : list Z;
  img_shape : list Z;
  scale_factor : f32
}.

(** The attributes of a sampling result that the orchestrator reads. *)
Record SamplingResult : Type := {
  bboxes : Boxes;
  pos_bboxes : Boxes;
  neg_bboxes : Boxes;
  pos_gt_labels : Labels
}.

(** The argument of [bbox2roi]: a Python list of per-image box tensors, or
    (as [simple_test] passes it to [refine_test_bboxes]) one box tensor. *)
Inductive BoxSeq : Type :=
| BoxList (l : list Boxes)
| BoxTensor (t : Boxes).

Record RoIExtractor : Type := {
  num_inputs : nat;
  featmap_strides : list Z;
  roi_forward : Pyramid -> Rois -> Tensor4
}.

Definition RpnOuts : Type := list (list Tensor4).
Definition AssignResult : Type := list Z.
Definition Targets : Type := list Tensor2.

(** The stages that contribute loss terms. *)
Inductive Stage : Type := StRpn | StBbox | StMask | StRefine.

#[global] Instance Stage_eq_dec : EqDecision Stage.
Proof. solve_decision. Defined.

(** One entry of the call log: a collaborator call with the arguments (or
    the result, for losses) the properties below talk about. *)
Inductive Event : Type :=
| EvExtractFeat (img : Tensor4)
| EvRpnHead (x : Pyramid)
| EvRpnGetBboxes (cfg : Cfg)
| EvAssign (i : nat)
| EvSample (i : nat)
| EvBboxRoIExtractor (feats : Pyramid) (rois : Rois)
| EvMaskRoIExtractor (feats : Pyramid) (rois : Rois)
| EvSharedHead (feats : Tensor4)
| EvBboxHead (feats : Tensor4)
| EvMaskHead (feats : Tensor4)
| EvInterpolate (input : Tensor4) (size : nat * nat)
| EvMaskIoUHead (feats : Tensor4) (mask : Tensor4)
| EvGetTarget (s : Stage) (sampling_results : list SamplingResult)
| EvLoss (s : Stage) (d : LossDict)
| EvSimpleTestRpn (cfg : Cfg)
| EvSimpleTestBboxes (cfg : Cfg)
| EvGetDetBboxes (rois : Rois) (cls_score bbox_pred : Tensor2)
                 (cfg : Cfg) (rescale : bool)
| EvGetSegMasks (mask_pred : Tensor4) (boxes : Boxes).

(* ===================================================================== *)
(** ** The monad: an outcome together with the calls made so far *)
(* ===================================================================== *)

Definition M (A : Type) : Type := Exc A * list Event.

Definition ret {A} (a : A) : M A := (inr a, []).
Definition raise {A} (e : PyErr) : M A := (inl e, []).
Definition bind {A B} (m : M A) (f : A -> M B) : M B :=
  match m with
  | (inl e, tr) => (inl e, tr)
  | (inr a, tr) => let '(r, tr') := f a in (r, tr ++ tr')
  end.

#[global] Instance M_ret : MRet M := @ret.
#[global] Instance M_bind : MBind M := fun A B f m => bind m f.

(** A statement that calls no collaborator. *)
Definition lift {A} (r : Exc A) : M A := (r, []).
(** A collaborator call: the value it returns, and its log entry. *)
Definition call {A} (ev : Event) (v : A) : M A := (inr v, [ev]).

(** A local variable that is bound on some paths only. *)
Definition local {A} (name : string) (v : option A) : M A :=
  match v with
  | Some a => ret a
  | None => raise (UnboundLocalError name)
  end.

(** [l[i]] *)
Definition py_index {A} (l : list A) (i : nat) : Exc A :=
  match l !! i with
  | Some a => inr a
  | None => inl (IndexError "list index out of range")
  end.

(** [torch.cat(ts)]: raises on an empty list. *)
Definition torch_cat {A} (ts : list (list A)) : Exc (list A) :=
  match ts with
  | [] => inl (RuntimeError "expected a non-empty list of Tensors")
  | _ => inr (concat ts)
  end.

(** The rows of [t] whose indicator is 1. *)
Definition select_rows {A} (inds : list bool) (t : list A) : list A :=
  omap (fun p : bool * A => if p.1 then Some p.2 else None) (zip inds t).

(** [t[inds]] for a uint8 indicator [inds]: the rows whose indicator is 1;
    the indicator must be as long as the tensor. *)
Definition mask_select {A} (t : list A) (inds : list bool) : Exc (list A) :=
  if Nat.eqb (length inds) (length t)
  then inr (select_rows inds t)
  else inl (IndexError "the shape of the mask does not match the tensor").

(** [F.max_pool2d(input, kernel_size, stride=None, padding=0, ...)]: the
    parameter [kernel_size] has no default, so a call that does not give
    it raises [TypeError] before any pooling happens. *)
Definition F_max_pool2d (pool : Tensor4 -> nat * nat -> Tensor4)
    (input : Tensor4) (kernel_size : option (nat * nat)) : Exc Tensor4 :=
  match kernel_size with
  | Some k => inr (pool input k)
  | None =>
      inl (TypeError
             "max_pool2d() missing 1 required positional argument: 'kernel_size'")
  end.

(* ===================================================================== *)
(** ** The detector object: flags, configuration and collaborators *)
(* ===================================================================== *)

Record Detector : Type := {
  train_cfg : Cfg;
  test_cfg : Cfg;
  with_rpn : bool;
  with_bbox : bool;
  with_mask : bool;
  with_shared_head : bool;
  share_roi_extractor : bool;
  extract_feat : Tensor4 -> Pyramid;
  rpn_head : Pyramid -> RpnOuts;
  rpn_head_loss :
    RpnOuts -> list Boxes -> list ImgMeta -> Cfg ->
    option (list (option Boxes)) -> LossDict;
  rpn_head_get_bboxes : RpnOuts -> list ImgMeta -> Cfg -> list Boxes;
  assigner_assign :
    Cfg -> Boxes -> Boxes -> option Boxes -> Labels -> AssignResult;
  sampler_sample :
    Cfg -> AssignResult -> Boxes -> Boxes -> Labels -> list Tensor4 ->
    SamplingResult;
  bbox2roi : BoxSeq -> Rois;
  bbox2result : Boxes -> Labels -> Z -> BboxResult;
  bbox_roi_extractor : RoIExtractor;
  mask_roi_extractor : RoIExtractor;
  shared_head : Tensor4 -> Tensor4;
  bbox_head : Tensor4 -> Tensor2 * Tensor2;
  bbox_head_num_classes : Z;
  bbox_head_get_target :
    list SamplingResult -> list Boxes -> list Labels -> Cfg -> Targets;
  bbox_head_loss : Tensor2 -> Tensor2 -> Targets -> LossDict;
  bbox_head_get_det_bboxes :
    Rois -> Tensor2 -> Tensor2 -> list Z -> f32 -> bool -> Cfg ->
    Boxes * Labels;
  mask_head : Tensor4 -> Tensor4;
  mask_head_num_classes : Z;
  mask_head_get_target :
    list SamplingResult -> option GtMasks -> Cfg -> Tensor3 * Tensor3;
  mask_head_loss :
    Tensor4 -> Tensor3 -> Tensor3 -> Labels -> Cfg -> LossDict;
  mask_head_get_seg_masks :
    Tensor4 -> Boxes -> Labels -> Cfg -> list Z -> f32 -> bool -> SegmResult;
  mask_iou_head : Tensor4 -> Tensor4 -> Tensor2 * Tensor2;
  mask_iou_head_get_target :
    list SamplingResult -> list Boxes -> list Labels -> Cfg -> Targets;
  mask_iou_head_loss : Tensor2 -> Tensor2 -> Targets -> LossDict;
  F_interpolate : Tensor4 -> nat * nat -> Tensor4;
  max_pool2d_kernel : Tensor4 -> nat * nat -> Tensor4;
  simple_test_rpn : Pyramid -> list ImgMeta -> Cfg -> list Boxes;
  simple_test_bboxes :
    Pyramid -> list ImgMeta -> list Boxes -> Cfg -> bool -> Boxes * Labels
}.

(** [for i in items: out.append(body(i))] *)
Fixpoint for_each {A B} (body : A -> M B) (items : list A) : M (list B) :=
  match items with
  | [] => ret []
  | i :: rest =>
      r ← body i;
      rs ← for_each body rest;
      ret (r :: rs)
  end.

(** [[lvl_feat[i][None] for lvl_feat in x]] *)
Fixpoint level_feats (x : Pyramid) (i : nat) : Exc (list Tensor4) :=
  match x with
  | [] => inr []
  | lvl_feat :: rest =>
      match py_index lvl_feat i with
      | inl e => inl e
      | inr f =>
          match level_feats rest i with
          | inl e => inl e
          | inr fs => inr ([f] :: fs)
          end
      end
  end.

(** [seq[i]] where [seq] may be [None]. *)
Definition py_index_opt {A} (l : option (list A)) (i : nat) : Exc A :=
  match l with
  | Some l => py_index l i
  | None => inl (TypeError "'NoneType' object is not subscriptable")
  end.

Section Orchestrator.

Variable self : Detector.

(** A call to a [loss] method: the returned mapping is logged. *)
Definition call_loss (s : Stage) (d : LossDict) : M LossDict :=
  call (EvLoss s d) d.

(** [self.shared_head(feats)] if the detector has a shared head. *)
Definition through_shared_head (feats : Tensor4) : M Tensor4 :=
  if with_shared_head self
  then call (EvSharedHead feats) (shared_head self feats)
  else ret feats.

(** The three-way [refine_sample] choice (lines 162-167 and 239-244):
    [cfg] is [self.train_cfg] or [self.test_cfg], [feats] the pooled mask
    features and [rois] the local variable holding the RoIs. *)
Definition select_refine_feats (cfg : Cfg) (x : Pyramid) (feats : Tensor4)
    (rois_name : string) (rois : option Rois) : M Tensor4 :=
  rcnn ← lift (getattr cfg "rcnn");
  policy ← lift (getattr rcnn "refine_sample");
  if cfg_eq_str policy "resample" then
    let feats_in := take (num_inputs (bbox_roi_extractor self)) x in
    rois ← local rois_name rois;
    call (EvBboxRoIExtractor feats_in rois)
         (roi_forward (bbox_roi_extractor self) feats_in rois)
  else
    rcnn ← lift (getattr cfg "rcnn");
    policy ← lift (getattr rcnn "refine_sample");
    if cfg_eq_str policy "interpolate" then
      call (EvInterpolate feats (7, 7)%nat) (F_interpolate self feats (7, 7)%nat)
    else
      lift (F_max_pool2d (max_pool2d_kernel self) feats None).

(** The body of the loop of lines 86-97 for image [i]. *)
Definition assign_and_sample (assigner_cfg sampler_cfg : Cfg) (x : Pyramid)
    (proposal_list : option (list Boxes)) (gt_bboxes : list Boxes)
    (gt_bboxes_ignore : list (option Boxes)) (gt_labels : list Labels)
    (i : nat) : M SamplingResult :=
  p ← lift (py_index_opt proposal_list i);
  g ← lift (py_index gt_bboxes i);
  ig ← lift (py_index gt_bboxes_ignore i);
  l ← lift (py_index gt_labels i);
  assign_result ← call (EvAssign i) (assigner_assign self assigner_cfg p g ig l);
  p ← lift (py_index_opt proposal_list i);
  g ← lift (py_index gt_bboxes i);
  l ← lift (py_index gt_labels i);
  feats ← lift (level_feats x i);
  call (EvSample i) (sampler_sample self sampler_cfg assign_result p g l feats).

(** [forward_train] (lines 49-190).  The local variables
    [sampling_results], [bbox_feats] and [pos_rois] are bound on some
    paths only, so they are carried as options. *)
Definition forward_train (img : Tensor4) (img_meta : list ImgMeta)
    (gt_bboxes : list Boxes) (gt_labels : list Labels)
    (gt_bboxes_ignore : option (list (option Boxes)))
    (gt_masks : option GtMasks) (proposals : option (list Boxes))
    : M LossDict :=
  x ← call (EvExtractFeat img) (extract_feat self img);
  let losses : LossDict := ∅ in
  (* RPN forward and loss *)
  '(losses, proposal_list) ←
    (if with_rpn self then
       rpn_outs ← call (EvRpnHead x) (rpn_head self x);
       cfg_rpn ← lift (getattr (train_cfg self) "rpn");
       rpn_losses ← call_loss StRpn
         (rpn_head_loss self rpn_outs gt_bboxes img_meta cfg_rpn
                        gt_bboxes_ignore);
       let losses := rpn_losses ∪ losses in
       test_rpn ← lift (getattr (test_cfg self) "rpn");
       proposal_cfg ← lift (cfg_get (train_cfg self) "rpn_proposal" test_rpn);
       proposal_list ← call (EvRpnGetBboxes proposal_cfg)
         (rpn_head_get_bboxes self rpn_outs img_meta proposal_cfg);
       ret (losses, Some proposal_list)
     else ret (losses, proposals));
  (* assign gts and sample proposals *)
  sampling_results ←
    (if with_bbox self || with_mask self then
       rcnn ← lift (getattr (train_cfg self) "rcnn");
       assigner_cfg ← lift (getattr rcnn "assigner");
       rcnn ← lift (getattr (train_cfg self) "rcnn");
       sampler_cfg ← lift (getattr rcnn "sampler");
       let num_imgs := length img in
       let gt_bboxes_ignore :=
         match gt_bboxes_ignore with
         | None => replicate num_imgs None
         | Some ig => ig
         end in
       srs ← for_each
         (assign_and_sample assigner_cfg sampler_cfg x proposal_list
                            gt_bboxes gt_bboxes_ignore gt_labels)
         (seq 0 num_imgs);
       ret (Some srs)
     else ret None);
  (* bbox head forward and loss *)
  '(losses, bbox_feats) ←
    (if with_bbox self then
       srs ← local "sampling_results" sampling_results;
       let rois := bbox2roi self (BoxList (map bboxes srs)) in
       let feats_in := take (num_inputs (bbox_roi_extractor self)) x in
       bbox_feats ← call (EvBboxRoIExtractor feats_in rois)
         (roi_forward (bbox_roi_extractor self) feats_in rois);
       bbox_feats ← through_shared_head bbox_feats;
       '(cls_score, bbox_pred) ← call (EvBboxHead bbox_feats)
         (bbox_head self bbox_feats);
       rcnn ← lift (getattr (train_cfg self) "rcnn");
       bbox_targets ← call (EvGetTarget StBbox srs)
         (bbox_head_get_target self srs gt_bboxes gt_labels rcnn);
       loss_bbox ← call_loss StBbox
         (bbox_head_loss self cls_score bbox_pred bbox_targets);
       ret (loss_bbox ∪ losses, Some bbox_feats)
     else ret (losses, None));
  (* mask head forward and loss *)
  if with_mask self then
    srs ← local "sampling_results" sampling_results;
    '(mask_feats, pos_rois) ←
      (if negb (share_roi_extractor self) then
         let pos_rois := bbox2roi self (BoxList (map pos_bboxes srs)) in
         let feats_in := take (num_inputs (mask_roi_extractor self)) x in
         mask_feats ← call (EvMaskRoIExtractor feats_in pos_rois)
           (roi_forward (mask_roi_extractor self) feats_in pos_rois);
         mask_feats ← through_shared_head mask_feats;
         ret (mask_feats, Some pos_rois)
       else
         bbox_feats ← local "bbox_feats" bbox_feats;
         let pos_inds :=
           flat_map (fun res =>
                       [replicate (length (pos_bboxes res)) true;
                        replicate (length (neg_bboxes res)) false]) srs in
         pos_inds ← lift (torch_cat pos_inds);
         mask_feats ← lift (mask_select bbox_feats pos_inds);
         ret (mask_feats, None));
    mask_pred ← call (EvMaskHead mask_feats) (mask_head self mask_feats);
    rcnn ← lift (getattr (train_cfg self) "rcnn");
    '(mask_targets, bg_targets) ← call (EvGetTarget StMask srs)
      (mask_head_get_target self srs gt_masks rcnn);
    pos_labels ← lift (torch_cat (map pos_gt_labels srs));
    test_rcnn ← lift (getattr (test_cfg self) "rcnn");
    loss_mask ← call_loss StMask
      (mask_head_loss self mask_pred mask_targets bg_targets pos_labels
                      test_rcnn);
    let losses := loss_mask ∪ losses in
    (* mask-hint refinement *)
    refine_feats ←
      select_refine_feats (train_cfg self) x mask_feats "pos_rois" pos_rois;
    rcnn ← lift (getattr (train_cfg self) "rcnn");
    thr ← lift (getattr rcnn "mask_thr_binary");
    thr ← lift (as_scalar thr);
    let mask_pred := binarize_ge thr (drop_background mask_pred) in
    '(refine_cls, refine_reg) ← call (EvMaskIoUHead refine_feats mask_pred)
      (mask_iou_head self refine_feats mask_pred);
    rcnn ← lift (getattr (train_cfg self) "rcnn");
    refine_targets ← call (EvGetTarget StRefine srs)
      (mask_iou_head_get_target self srs gt_bboxes gt_labels rcnn);
    loss_refine ← call_loss StRefine
      (mask_iou_head_loss self refine_cls refine_reg refine_targets);
    ret (loss_refine ∪ losses)
  else ret losses.

(** [simple_test_mask] (lines 192-227). *)
Definition simple_test_mask (x : Pyramid) (img_meta : list ImgMeta)
    (det_bboxes : Boxes) (det_labels : Labels) (rescale : bool)
    : M SegmResult :=
  meta ← lift (py_index img_meta 0);
  let ori_shape := ori_shape meta in
  meta ← lift (py_index img_meta 0);
  let scale_factor := scale_factor meta in
  if Nat.eqb (length det_bboxes) 0 then
    ret (replicate (Z.to_nat (mask_head_num_classes self - 1)) [])
  else
    let _bboxes :=
      if rescale
      then map (fun row => map (fun v => SFmul 24 128 v scale_factor)
                               (take 4 row)) det_bboxes
      else det_bboxes in
    let mask_rois := bbox2roi self (BoxList [_bboxes]) in
    let feats_in :=
      take (length (featmap_strides (mask_roi_extractor self))) x in
    mask_feats ← call (EvMaskRoIExtractor feats_in mask_rois)
      (roi_forward (mask_roi_extractor self) feats_in mask_rois);
    mask_feats ← through_shared_head mask_feats;
    mask_pred ← call (EvMaskHead mask_feats) (mask_head self mask_feats);
    test_rcnn ← lift (getattr (test_cfg self) "rcnn");
    call (EvGetSegMasks mask_pred _bboxes)
         (mask_head_get_seg_masks self mask_pred _bboxes det_labels
                                  test_rcnn ori_shape scale_factor rescale).

(** [refine_test_bboxes] (lines 229-262). *)
Definition refine_test_bboxes (x : Pyramid) (img_meta : list ImgMeta)
    (proposals : BoxSeq) (rcnn_test_cfg : Cfg) (rescale : bool)
    : M (Boxes * Labels) :=
  let rois := bbox2roi self proposals in
  let feats_in := take (num_inputs (mask_roi_extractor self)) x in
  roi_feats ← call (EvMaskRoIExtractor feats_in rois)
    (roi_forward (mask_roi_extractor self) feats_in rois);
  mask_pred ← call (EvMaskHead roi_feats) (mask_head self roi_feats);
  let mask_pred := drop_background mask_pred in
  refine_feats ←
    select_refine_feats (test_cfg self) x roi_feats "rois" (Some rois);
  refine_feats ← through_shared_head refine_feats;
  rcnn ← lift (getattr rcnn_test_cfg "rcnn");
  thr ← lift (getattr rcnn "mask_thr_binary");
  thr ← lift (as_scalar thr);
  let refine_masks := binarize_gt thr mask_pred in
  '(cls_score, bbox_pred) ← call (EvMaskIoUHead refine_feats refine_masks)
    (mask_iou_head self refine_feats refine_masks);
  meta ← lift (py_index img_meta 0);
  let img_shape := img_shape meta in
  meta ← lift (py_index img_meta 0);
  let scale_factor := scale_factor meta in
  call (EvGetDetBboxes rois cls_score bbox_pred rcnn_test_cfg rescale)
       (bbox_head_get_det_bboxes self rois cls_score bbox_pred img_shape
                                 scale_factor rescale rcnn_test_cfg).

(** [simple_test] (lines 264-288): the detections, and the segmentation
    when the detector has a mask head. *)
Definition simple_test (img : Tensor4) (img_meta : list ImgMeta)
    (proposals : option (list Boxes)) (rescale : bool)
    : M (BboxResult * option SegmResult) :=
  if negb (with_bbox self) then
    raise (AssertionError "Bbox head must be implemented.")
  else
    x ← call (EvExtractFeat img) (extract_feat self img);
    proposal_list ←
      match proposals with
      | None =>
          rpn_cfg ← lift (getattr (test_cfg self) "rpn");
          call (EvSimpleTestRpn rpn_cfg)
               (simple_test_rpn self x img_meta rpn_cfg)
      | Some p => ret p
      end;
    rcnn ← lift (getattr (test_cfg self) "rcnn");
    '(det_bboxes, det_labels) ← call (EvSimpleTestBboxes rcnn)
      (simple_test_bboxes self x img_meta proposal_list rcnn rescale);
    rcnn ← lift (getattr (test_cfg self) "rcnn");
    '(det_bboxes, det_labels) ←
      refine_test_bboxes x img_meta (BoxTensor det_bboxes) rcnn rescale;
    let bbox_results :=
      bbox2result self det_bboxes det_labels (bbox_head_num_classes self) in
    if negb (with_mask self) then ret (bbox_results, None)
    else
      segm_results ←
        simple_test_mask x img_meta det_bboxes det_labels rescale;
      ret (bbox_results, Some segm_results).

End Orchestrator.

(* ===================================================================== *)
(** ** Properties of call logs *)
(* ===================================================================== *)

(** Every logged call of [m] satisfies [P], whatever the outcome. *)
Definition trace_ok {A} (P : Event -> Prop) (m : M A) : Prop := Forall P m.2.

(** The mask argument of a call to the refinement head is hard. *)
Definition refine_mask_hard (ev : Event) : Prop :=
  match ev with
  | EvMaskIoUHead _ mask => hard_mask mask
  | _ => True
  end.

(** The outcome and the call log of [m] satisfy [Q]. *)
Definition outcome {A} (m : M A) (Q : Exc A -> list Event -> Prop) : Prop :=
  Q m.1 m.2.

(** The run returned a value. *)
Definition returned {A} (m : M A) : bool :=
  match m.1 with
  | inr _ => true
  | inl _ => false
  end.

(** The loss computations of a run, in order: the stage and the mapping
    its [loss] method returned. *)
Definition loss_events (tr : list Event) : list (Stage * LossDict) :=
  omap (fun ev => match ev with
                  | EvLoss s d => Some (s, d)
                  | _ => None
                  end) tr.

(** The stages a detector has: the refinement stage runs with the mask
    head. *)
Definition stage_enabled (self : Detector) (s : Stage) : bool :=
  match s with
  | StRpn => with_rpn self
  | StBbox => with_bbox self
  | StMask => with_mask self
  | StRefine => with_mask self
  end.

(** The calls of the assignment loop. *)
Definition sampling_event (ev : Event) : Prop :=
  match ev with
  | EvAssign _ | EvSample _ => True
  | _ => False
  end.

(** The [refine_sample] policy of a configuration, [cfg.rcnn.refine_sample]. *)
Definition policy_of (cfg : Cfg) : Exc Cfg :=
  match getattr cfg "rcnn" with
  | inl e => inl e
  | inr rcnn => getattr rcnn "refine_sample"
  end.

(** The threshold at [cfg.rcnn.mask_thr_binary]. *)
Definition threshold_of (cfg : Cfg) : Exc Cfg :=
  match getattr cfg "rcnn" with
  | inl e => inl e
  | inr rcnn => getattr rcnn "mask_thr_binary"
  end.

(** The masks the refinement head was called on, in order. *)
Definition refinement_masks (tr : list Event) : list Tensor4 :=
  omap (fun ev => match ev with
                  | EvMaskIoUHead _ mask => Some mask
                  | _ => None
                  end) tr.

(** The features the mask head was called on, in order. *)
Definition mask_head_inputs (tr : list Event) : list Tensor4 :=
  omap (fun ev => match ev with
                  | EvMaskHead feats => Some feats
                  | _ => None
                  end) tr.

(** The RoIs the box-RoI extractor was called on, in order. *)
Definition bbox_roi_calls (tr : list Event) : list Rois :=
  omap (fun ev => match ev with
                  | EvBboxRoIExtractor _ rois => Some rois
                  | _ => None
                  end) tr.

(** The errors of indexing a sequence. *)
Definition lookup_error (e : PyErr) : Prop :=
  match e with
  | IndexError _ | TypeError _ => True
  | _ => False
  end.

(** Where a missing [refine_sample] key shows: the run starts with the
    feature extraction; the attribute error for the key is raised only
    with the mask head enabled, after the mask head ran and the mask loss
    was computed; and with the mask head enabled the run does not return. *)
Definition late_report (self : Detector) (img : Tensor4)
    (r : Exc LossDict) (tr : list Event) : Prop :=
  (exists tr', tr = EvExtractFeat img :: tr') /\
  (r = inl (AttributeError "refine_sample") ->
     with_mask self = true /\
     mask_head_inputs tr <> [] /\
     In StMask (map fst (loss_events tr))) /\
  (with_mask self = true -> returned (r, tr) = false).

(** The calls of the refinement head, in order: features and mask. *)
Definition refinement_calls (tr : list Event) : list (Tensor4 * Tensor4) :=
  omap (fun ev => match ev with
                  | EvMaskIoUHead feats mask => Some (feats, mask)
                  | _ => None
                  end) tr.

(** The sampling results the refinement targets were built from. *)
Definition refinement_target_inputs (tr : list Event)
    : list (list SamplingResult) :=
  omap (fun ev => match ev with
                  | EvGetTarget StRefine srs => Some srs
                  | _ => None
                  end) tr.

(** Features and mask are both computed region by region from [rois]:
    row [i] of each belongs to RoI [i]. *)
Definition aligned (F G : list f32 -> Tensor3) (rois : Rois)
    (call : Tensor4 * Tensor4) : Prop :=
  call.1 = map F rois /\ call.2 = map G rois /\
  length call.1 = length call.2.

(** [float(v)] for a tensor element: its value as a Python float (exact). *)
Definition to_double (v : f32) : f64 :=
  match v with
  | S754_finite s m e => binary_round 53 1024 s m e
  | _ => v
  end.

(** 1.0 as a Python float: 2^52 * 2^-52. *)
Definition one_double : f64 := S754_finite false 4503599627370496 (-52)%Z.

(** [0 < c < 1] on Python floats. *)
Definition inside_unit_interval (c : f64) : bool :=
  SFltb (S754_zero false) c && SFltb c one_double.

(** The Python floats 0.99999999, 1e-46 and 0.3, and the binary32 value
    nearest to 0.3 (0.300000011920928955078125 = 10066330 * 2^-25). *)
Definition just_below_one : f64 :=
  S754_finite false 9007199164668999 (-53)%Z.
Definition tiny : f64 :=
  S754_finite false 5142201741628769 (-205)%Z.
Definition three_tenths : f64 :=
  S754_finite false 5404319552844595 (-54)%Z.
Definition three_tenths_f32 : f32 :=
  S754_finite false 10066330 (-25)%Z.

(** The element of a rank-4 tensor at a position, if there is one. *)
Definition entry4 (t : Tensor4) (i j k l : nat) : option f32 :=
  match t !! i with
  | Some region =>
      match region !! j with
      | Some channel =>
          match channel !! k with
          | Some row => row !! l
          | None => None
          end
      | None => None
      end
  | None => None
  end.

(** The threshold of the comparison: the number at
    [cfg.rcnn.mask_thr_binary], as a binary32 value. *)
Definition threshold_value (cfg : Cfg) : f32 :=
  match threshold_of cfg with
  | inr (CfgFloat thr) => of_float thr
  | _ => zero
  end.

(** What the orchestrator computes for one region, given what the
    collaborators compute for one region. *)
Section PerRegion.

Variable self : Detector.
Variables bbox_pool mask_pool : Pyramid -> list f32 -> Tensor3.
Variables shared_region mask_region : Tensor3 -> Tensor3.
Variable interp_region : nat * nat -> Tensor3 -> Tensor3.

Definition shared_or_id : Tensor3 -> Tensor3 :=
  if with_shared_head self then shared_region else id.

(** The pooled mask features of a region in [forward_train]. *)
Definition train_mask_feats (x : Pyramid) : list f32 -> Tensor3 :=
  if share_roi_extractor self
  then fun r =>
         shared_or_id
           (bbox_pool (take (num_inputs (bbox_roi_extractor self)) x) r)
  else fun r =>
         shared_or_id
           (mask_pool (take (num_inputs (mask_roi_extractor self)) x) r).

(** The pooled mask features of a region in [refine_test_bboxes]. *)
Definition test_mask_feats (x : Pyramid) : list f32 -> Tensor3 :=
  mask_pool (take (num_inputs (mask_roi_extractor self)) x).

(** The refinement features of a region under the policy of [cfg]. *)
Definition policy_feats (cfg : Cfg) (x : Pyramid)
    (mask_feats : list f32 -> Tensor3) : list f32 -> Tensor3 :=
  match policy_of cfg with
  | inr policy =>
      if cfg_eq_str policy "resample"
      then bbox_pool (take (num_inputs (bbox_roi_extractor self)) x)
      else fun r => interp_region (7, 7)%nat (mask_feats r)
  | inl _ => mask_feats
  end.

(** The hard mask of a region: mask head, background dropped, threshold. *)
Definition hint (cmp : f32 -> f32 -> bool) (thr : f32)
    (mask_feats : list f32 -> Tensor3) : list f32 -> Tensor3 :=
  fun r => map (map (map (fun v => of_bool (cmp v thr))))
               (drop 1 (mask_region (mask_feats r))).

(** Every call of the refinement head in a training log is aligned with
    the positive RoIs of sampling results that refinement targets are built
    from. *)
Definition train_aligned (img : Tensor4) (tr : list Event) : Prop :=
  let x := extract_feat self img in
  let mf := train_mask_feats x in
  Forall (fun c =>
            exists srs,
              In srs (refinement_target_inputs tr) /\
              aligned (policy_feats (train_cfg self) x mf)
                      (hint geb (threshold_value (train_cfg self)) mf)
                      (bbox2roi self (BoxList (map pos_bboxes srs))) c)
         (refinement_calls tr).

(** Every call of the refinement head in an inference log is aligned with
    the RoIs of the candidate boxes. *)
Definition test_aligned (x : Pyramid) (cfg : Cfg) (proposals : BoxSeq)
    (tr : list Event) : Prop :=
  let mf := test_mask_feats x in
  Forall (aligned
            (fun r => shared_or_id (policy_feats (test_cfg self) x mf r))
            (hint gtb (threshold_value cfg) mf)
            (bbox2roi self proposals))
         (refinement_calls tr).

End PerRegion.

(** The alignment of the refinement inputs, in training and in inference:
    the per-region functions [F] and [G] are fixed before the boxes are,
    and every call of the refinement head gets [map F rois] and
    [map G rois] for the same [rois]. *)
Definition refinement_aligned (self : Detector) : Prop :=
  (forall img, exists F G,
     forall img_meta gt_bboxes gt_labels gt_bboxes_ignore gt_masks proposals
            feats mask,
       let m := forward_train self img img_meta gt_bboxes gt_labels
                              gt_bboxes_ignore gt_masks proposals in
       In (EvMaskIoUHead feats mask) m.2 ->
       exists srs,
         In (EvGetTarget StRefine srs) m.2 /\
         aligned F G (bbox2roi self (BoxList (map pos_bboxes srs)))
                 (feats, mask)) /\
  (forall x rcnn_test_cfg, exists F G,
     forall img_meta proposals rescale feats mask,
       let m := refine_test_bboxes self x img_meta proposals rcnn_test_cfg
                                   rescale in
       In (EvMaskIoUHead feats mask) m.2 ->
       aligned F G (bbox2roi self proposals) (feats, mask)).

(** A sampling result lists its positive boxes, then its negative ones. *)
Definition partitioned (res : SamplingResult) : Prop :=
  bboxes res = pos_bboxes res ++ neg_bboxes res.

(** The indicator built in lines 131-144 of [forward_train]. *)
Definition pos_indicator (srs : list SamplingResult) : list bool :=
  concat (flat_map (fun res =>
                      [replicate (length (pos_bboxes res)) true;
                       replicate (length (neg_bboxes res)) false]) srs).

(* ===================================================================== *)
(** ** A small concrete detector, to run the orchestrator on *)
(* ===================================================================== *)

Module Demo.

Definition box_a : list f32 := [zero; zero; one; one].
Definition box_b : list f32 := [zero; zero; half; half].

(** A standard R-CNN section: thresholds and sampling settings, with the
    [refine_sample] policy when [policy] is given, and further entries. *)
Definition rcnn_cfg (policy : option Cfg) (extra : list (string * Cfg)) : Cfg :=
  CfgDict ([("assigner", CfgDict [("type", CfgStr "MaxIoUAssigner")]);
            ("sampler", CfgDict [("type", CfgStr "RandomSampler")]);
            ("score_thr", CfgFloat zero);
            ("mask_thr_binary", CfgFloat half)]
           ++ match policy with
              | Some p => [("refine_sample", p)]
              | None => []
              end
           ++ extra).

Definition cfg (policy : option Cfg) (extra : list (string * Cfg)) : Cfg :=
  CfgDict [("rpn", CfgDict [("nms_thr", CfgFloat three_quarters)]);
           ("rcnn", rcnn_cfg policy extra)].

(** The image index as a tensor element. *)
Definition index_f32 (i : nat) : f32 :=
  match i with
  | O => zero
  | S _ => S754_finite false (Pos.of_nat i) 0
  end.

(** RoIs of per-image boxes: image index, then the four coordinates. *)
Definition rois_of (b : BoxSeq) : Rois :=
  match b with
  | BoxList l =>
      concat (imap (fun i bs => map (fun b => index_f32 i :: take 4 b) bs) l)
  | BoxTensor t => map (fun b => zero :: take 4 b) t
  end.

(** Pooled features of one region: two channels of one row each. *)
Definition bbox_pool (r : list f32) : list (list (list f32)) :=
  [[r]; [[half; half; half]]].
Definition mask_pool (r : list f32) : list (list (list f32)) :=
  [[r]; [[half; three_quarters; one]]].

Definition detector (train test : Cfg)
    (rpn bbox mask shared share : bool) (dets : Boxes * Labels) : Detector := {|
  train_cfg := train;
  test_cfg := test;
  with_rpn := rpn;
  with_bbox := bbox;
  with_mask := mask;
  with_shared_head := shared;
  share_roi_extractor := share;
  extract_feat := fun img => [img; img];
  rpn_head := fun x => [x];
  rpn_head_loss := fun _ _ _ _ _ =>
    {[ "loss_rpn_cls" := [half]; "loss_rpn_bbox" := [half] ]};
  rpn_head_get_bboxes := fun _ metas _ => map (fun _ => [box_a; box_b]) metas;
  assigner_assign := fun _ p _ _ _ => map (fun _ => 0%Z) p;
  sampler_sample := fun _ _ p _ l _ =>
    {| bboxes := take 1 p ++ drop 1 p;
       pos_bboxes := take 1 p; neg_bboxes := drop 1 p;
       pos_gt_labels := take 1 l |};
  bbox2roi := rois_of;
  bbox2result := fun boxes _ n => replicate (Z.to_nat (n - 1)) boxes;
  bbox_roi_extractor :=
    {| num_inputs := 1; featmap_strides := [4%Z];
       roi_forward := fun _ rois => map bbox_pool rois |};
  mask_roi_extractor :=
    {| num_inputs := 1; featmap_strides := [4%Z];
       roi_forward := fun _ rois => map mask_pool rois |};
  shared_head := map (fun region => region);
  bbox_head := fun t =>
    (map (fun _ => [half; half]) t, map (fun _ => [zero; zero; zero; zero]) t);
  bbox_head_num_classes := 2;
  bbox_head_get_target := fun _ _ _ _ => [];
  bbox_head_loss := fun _ _ _ =>
    {[ "loss_cls" := [half]; "loss_bbox" := [half] ]};
  bbox_head_get_det_bboxes := fun rois _ _ _ _ _ _ =>
    (map (drop 1) rois, map (fun _ => 0%Z) rois);
  mask_head := map (fun region => region);
  mask_head_num_classes := 3;
  mask_head_get_target := fun _ _ _ => ([], []);
  mask_head_loss := fun _ _ _ _ _ => {[ "loss_mask" := [half] ]};
  mask_head_get_seg_masks := fun _ boxes _ _ _ _ _ => [[boxes]; [boxes]];
  mask_iou_head := fun feats mask =>
    (map (fun _ => [half; half]) feats,
     map (fun _ => [zero; zero; zero; zero]) mask);
  mask_iou_head_get_target := fun _ _ _ _ => [];
  mask_iou_head_loss := fun _ _ _ =>
    {[ "loss_refine_cls" := [half]; "loss_refine_bbox" := [half] ]};
  F_interpolate := fun t _ => map (fun region => region) t;
  max_pool2d_kernel := fun t _ => t;
  simple_test_rpn := fun _ _ _ => [[box_a; box_b]];
  simple_test_bboxes := fun _ _ _ _ _ => dets
|}.

(** One image of one region, one channel, one row. *)
Definition img : Tensor4 := [[[[half; one]]]].
Definition meta : ImgMeta :=
  {| ori_shape := [4; 4; 3]%Z; img_shape := [2; 2; 3]%Z; scale_factor := half |}.

(** One provisional detection (box and score), and none. *)
Definition one_det : Boxes * Labels := ([box_a ++ [half]], [0%Z]).
Definition no_det : Boxes * Labels := ([], []).

(** A detector with separate RoI extractors and a given policy in both
    configurations. *)
Definition standard (policy : option Cfg) (dets : Boxes * Labels) : Detector :=
  detector (cfg policy []) (cfg policy []) true true true false false dets.

(** The same with the mask branch reusing the pooled box features. *)
Definition shared (policy : option Cfg) (dets : Boxes * Labels) : Detector :=
  detector (cfg policy []) (cfg policy []) true true true false true dets.

(** A detector whose test R-CNN section carries a nested [rcnn] section
    with its own threshold. *)
Definition nested (policy : option Cfg) (dets : Boxes * Labels) : Detector :=
  detector (cfg policy [])
           (cfg policy [("rcnn", CfgDict [("mask_thr_binary", CfgFloat half)])])
           true true true false false dets.

(** The test R-CNN section holds the threshold 0.5, and a nested [rcnn]
    section holds the threshold 1.0. *)
Definition two_thresholds (dets : Boxes * Labels) : Detector :=
  detector (cfg (Some (CfgStr "resample")) [])
           (cfg (Some (CfgStr "resample"))
                [("rcnn", CfgDict [("mask_thr_binary", CfgFloat one)])])
           true true true false false dets.

(** The pyramid of the demo image. *)
Definition feats : Pyramid := [img; img].

(** [simple_test] on the demo image, proposals from the RPN. *)
Definition test (d : Detector) : M (BboxResult * option SegmResult) :=
  simple_test d img [meta] None false.

(** [refine_test_bboxes] as [simple_test] calls it: the provisional boxes
    as one tensor, and [self.test_cfg.rcnn] as the configuration. *)
Definition refine (d : Detector) (dets : Boxes) : M (Boxes * Labels) :=
  match getattr (test_cfg d) "rcnn" with
  | inr rcnn => refine_test_bboxes d feats [meta] (BoxTensor dets) rcnn false
  | inl e => raise e
  end.

(** [forward_train] on one image with one ground-truth box. *)
Definition train (d : Detector) : M LossDict :=
  forward_train d img [meta] [[box_a]] [[1%Z]] None (Some [[[[one]]]]) None.

End Demo.

(* ===================================================================== *)
(** ** Further summaries of call logs *)
(* ===================================================================== *)

(** The forward passes of the heads, in order. *)
Definition head_stages (tr : list Event) : list Stage :=
  omap (fun ev => match ev with
                  | EvRpnHead _ => Some StRpn
                  | EvBboxHead _ => Some StBbox
                  | EvMaskHead _ => Some StMask
                  | EvMaskIoUHead _ _ => Some StRefine
                  | _ => None
                  end) tr.

(** The calls of the assigner and of the sampler, in order. *)
Definition sampling_calls (tr : list Event) : list Event :=
  omap (fun ev => match ev with
                  | EvAssign _ | EvSample _ => Some ev
                  | _ => None
                  end) tr.

(** Assignment then sampling, image by image. *)
Definition per_image_sampling (num_imgs : nat) : list Event :=
  flat_map (fun i => [EvAssign i; EvSample i]) (seq 0 num_imgs).

(** The sampling results given to the [get_target] methods. *)
Definition target_inputs (tr : list Event) : list (list SamplingResult) :=
  omap (fun ev => match ev with
                  | EvGetTarget _ srs => Some srs
                  | _ => None
                  end) tr.

(** The configurations the RPN proposals were decoded with. *)
Definition rpn_decode_cfgs (tr : list Event) : list Cfg :=
  omap (fun ev => match ev with
                  | EvRpnGetBboxes cfg => Some cfg
                  | _ => None
                  end) tr.

(** The RoIs the mask-RoI extractor was called on, in order. *)
Definition mask_roi_calls (tr : list Event) : list Rois :=
  omap (fun ev => match ev with
                  | EvMaskRoIExtractor _ rois => Some rois
                  | _ => None
                  end) tr.

(** The calls of [F.interpolate]: input and target size. *)
Definition interpolate_calls (tr : list Event)
    : list (Tensor4 * (nat * nat)) :=
  omap (fun ev => match ev with
                  | EvInterpolate input size => Some (input, size)
                  | _ => None
                  end) tr.

(** The features of the calls of the refinement head. *)
Definition refinement_feats (tr : list Event) : list Tensor4 :=
  omap (fun ev => match ev with
                  | EvMaskIoUHead feats _ => Some feats
                  | _ => None
                  end) tr.

(** [losses.update(d)] for every mapping of [ds] in turn, from the empty
    dictionary: a later mapping overrides an earlier one on a shared key. *)
Definition updates (ds : list (Stage * LossDict)) : LossDict :=
  foldl (fun losses (sd : Stage * LossDict) => sd.2 ∪ losses) ∅ ds.

(** The stages of inference. *)
Inductive TestStage : Type :=
| TsFeatures | TsPropose | TsFirstPass | TsRefine | TsDecode | TsSegment.

(** The stages of an inference log, in order. *)
Definition test_stages (tr : list Event) : list TestStage :=
  omap (fun ev => match ev with
                  | EvExtractFeat _ => Some TsFeatures
                  | EvSimpleTestRpn _ => Some TsPropose
                  | EvSimpleTestBboxes _ => Some TsFirstPass
                  | EvMaskIoUHead _ _ => Some TsRefine
                  | EvGetDetBboxes _ _ _ _ _ => Some TsDecode
                  | EvGetSegMasks _ _ => Some TsSegment
                  | _ => None
                  end) tr.

(** The shape of a rank-4 tensor: for every region and channel, the
    lengths of its rows. *)
Definition shape4 (t : Tensor4) : list (list (list nat)) :=
  map (map (map (@length f32))) t.

(** What image [i] needs for its assignment and sampling: an entry in the
    proposals, the ground-truth boxes, the ignore regions, the labels and
    every pyramid level. *)
Definition image_covered (pl : option (list Boxes)) (gb : list Boxes)
    (gi : list (option Boxes)) (gl : list Labels) (x : Pyramid)
    (i : nat) : Prop :=
  (exists p, pl = Some p /\ (i < length p)%nat) /\
  (i < length gb)%nat /\ (i < length gi)%nat /\ (i < length gl)%nat /\
  Forall (fun lvl : Tensor4 => (i < length lvl)%nat) x.

(** What a returned training step has done: the loss mapping is the
    result of the updates of the loss computations in order, every enabled
    head ran once and in stage order, the assigner and the sampler ran
    image by image, and every [get_target] got one sampling result per
    image. *)
Definition train_protocol (self : Detector) (img : Tensor4)
    (r : Exc LossDict) (tr : list Event) : Prop :=
  match r with
  | inl _ => True
  | inr losses =>
      losses = updates (loss_events tr) /\
      head_stages tr
      = List.filter (stage_enabled self) [StRpn; StBbox; StMask; StRefine] /\
      sampling_calls tr
      = (if with_bbox self || with_mask self
         then per_image_sampling (length img) else []) /\
      Forall (fun srs : list SamplingResult => length srs = length img)
             (target_inputs tr)
  end.

(** What a returned training step needed: an entry for every image in the
    per-image inputs, the box head when the mask branch reuses the pooled
    box features, at least one image when the mask head is enabled, and
    [test_cfg.rpn] when the RPN is enabled, whose proposals are decoded
    with [train_cfg.rpn_proposal] when that key exists and with
    [test_cfg.rpn] otherwise. *)
Definition train_requirements (self : Detector) (img : Tensor4)
    (gt_bboxes : list Boxes) (gt_labels : list Labels)
    (gt_bboxes_ignore : option (list (option Boxes)))
    (proposals : option (list Boxes))
    (r : Exc LossDict) (tr : list Event) : Prop :=
  match r with
  | inl _ => True
  | inr _ =>
      (with_bbox self || with_mask self = true ->
         (length img <= length gt_bboxes)%nat /\
         (length img <= length gt_labels)%nat /\
         (forall ig, gt_bboxes_ignore = Some ig ->
                     (length img <= length ig)%nat) /\
         (with_rpn self = false -> (0 < length img)%nat ->
            exists p, proposals = Some p /\ (length img <= length p)%nat) /\
         Forall (fun lvl : Tensor4 => (length img <= length lvl)%nat)
                (extract_feat self img)) /\
      (with_mask self = true -> share_roi_extractor self = true ->
         with_bbox self = true) /\
      (with_mask self = true -> img <> []) /\
      (with_rpn self = true ->
         exists test_rpn proposal_cfg,
           getattr (test_cfg self) "rpn" = inr test_rpn /\
           cfg_get (train_cfg self) "rpn_proposal" test_rpn
           = inr proposal_cfg /\
           rpn_decode_cfgs tr = [proposal_cfg])
  end.

(** The configuration a returned training step read: [train_cfg.rpn] with
    the RPN; [train_cfg.rcnn] with its [assigner] and [sampler] with a box
    or mask head; and with the mask head [test_cfg.rcnn], which is given to
    the mask loss, a [refine_sample] policy and a number at
    [mask_thr_binary] in [train_cfg.rcnn]. *)
Definition train_cfg_keys (self : Detector) (r : Exc LossDict)
    (tr : list Event) : Prop :=
  match r with
  | inl _ => True
  | inr _ =>
      (with_rpn self = true ->
         exists rpn, getattr (train_cfg self) "rpn" = inr rpn) /\
      (with_bbox self || with_mask self = true ->
         exists rcnn assigner sampler,
           getattr (train_cfg self) "rcnn" = inr rcnn /\
           getattr rcnn "assigner" = inr assigner /\
           getattr rcnn "sampler" = inr sampler) /\
      (with_mask self = true ->
         (exists test_rcnn, getattr (test_cfg self) "rcnn" = inr test_rcnn) /\
         (exists policy, policy_of (train_cfg self) = inr policy) /\
         (exists thr, threshold_of (train_cfg self) = inr (CfgFloat thr)))
  end.

(** How a returned training step with a mask head got its refinement
    features.  With ['resample'] the extractors are separate, nothing is
    resized, and the box-RoI extractor was last called on the RoIs the
    mask-RoI extractor was called on, its output going to the refinement
    head.  Otherwise the policy is ['interpolate']: the features the mask
    head was called on are resized to 7 x 7 for the refinement head, and
    the box-RoI extractor was called by the box stage only. *)
Definition train_policy (self : Detector) (img : Tensor4)
    (r : Exc LossDict) (tr : list Event) : Prop :=
  match r with
  | inl _ => True
  | inr _ =>
      with_mask self = true ->
      forall policy, policy_of (train_cfg self) = inr policy ->
        (cfg_eq_str policy "resample" = true ->
           share_roi_extractor self = false /\
           interpolate_calls tr = [] /\
           exists rois,
             mask_roi_calls tr = [rois] /\
             last (bbox_roi_calls tr) = Some rois /\
             refinement_feats tr
             = [roi_forward (bbox_roi_extractor self)
                  (take (num_inputs (bbox_roi_extractor self))
                        (extract_feat self img)) rois]) /\
        (cfg_eq_str policy "resample" = false ->
           cfg_eq_str policy "interpolate" = true /\
           length (bbox_roi_calls tr)
           = (if with_bbox self then 1%nat else 0%nat) /\
           exists mask_feats,
             mask_head_inputs tr = [mask_feats] /\
             interpolate_calls tr = [(mask_feats, (7, 7)%nat)] /\
             refinement_feats tr
             = [F_interpolate self mask_feats (7, 7)%nat])
  end.

(** What [refine_test_bboxes] needs to return: a [refine_sample] policy
    in [self.test_cfg.rcnn] that is one of the two known names, a number at
    [rcnn_test_cfg.rcnn.mask_thr_binary], and the meta data of an image. *)
Definition refine_ready (self : Detector) (rcnn_test_cfg : Cfg)
    (img_meta : list ImgMeta) : Prop :=
  (exists policy,
     policy_of (test_cfg self) = inr policy /\
     cfg_eq_str policy "resample" || cfg_eq_str policy "interpolate" = true) /\
  (exists thr, threshold_of rcnn_test_cfg = inr (CfgFloat thr)) /\
  img_meta <> [].

(** The stages of [simple_test] in order, the proposal stage being skipped
    when proposals are given. *)
Definition test_stage_order (proposals : option (list Boxes))
    : list TestStage :=
  [TsFeatures] ++ match proposals with
                  | None => [TsPropose]
                  | Some _ => []
                  end
  ++ [TsFirstPass; TsRefine; TsDecode; TsSegment].

(** The boxes [simple_test_mask] pools mask features from: the detections,
    or their four coordinates times the scale factor. *)
Definition seg_boxes (scale : f32) (rescale : bool) (det_bboxes : Boxes)
    : Boxes :=
  if rescale
  then map (fun row => map (fun v => SFmul 24 128 v scale) (take 4 row))
           det_bboxes
  else det_bboxes.

(** The pooling calls of [refine_test_bboxes]: the mask-RoI extractor and
    the mask head run once, on the RoIs of the proposals; with ['resample']
    the box-RoI extractor runs on the same RoIs and nothing is resized;
    otherwise the box-RoI extractor is not called, and with
    ['interpolate'] the pooled mask features are resized to 7 x 7. *)
Definition test_policy (self : Detector) (x : Pyramid) (proposals : BoxSeq)
    (tr : list Event) : Prop :=
  let rois := bbox2roi self proposals in
  let roi_feats :=
    roi_forward (mask_roi_extractor self)
                (take (num_inputs (mask_roi_extractor self)) x) rois in
  mask_roi_calls tr = [rois] /\
  mask_head_inputs tr = [roi_feats] /\
  forall policy, policy_of (test_cfg self) = inr policy ->
    (cfg_eq_str policy "resample" = true ->
       bbox_roi_calls tr = [rois] /\ interpolate_calls tr = []) /\
    (cfg_eq_str policy "resample" = false ->
       bbox_roi_calls tr = [] /\
       (cfg_eq_str policy "interpolate" = true ->
          interpolate_calls tr = [(roi_feats, (7, 7)%nat)])).

(** What a run of [simple_test] does: its stages come in the fixed order;
    it raises the assertion error exactly when the detector has no box
    head, and then nothing has been called, and otherwise the first call
    is the feature extraction; when it returns, the refined boxes were
    decoded, and there is a segmentation result exactly when the detector
    has a mask head. *)
Definition test_protocol (self : Detector) (img : Tensor4)
    (proposals : option (list Boxes))
    (r : Exc (BboxResult * option SegmResult)) (tr : list Event) : Prop :=
  test_stages tr `prefix_of` test_stage_order proposals /\
  ((exists msg, r = inl (AssertionError msg)) <-> with_bbox self = false) /\
  (with_bbox self = false -> tr = []) /\
  (with_bbox self = true -> exists tr', tr = EvExtractFeat img :: tr') /\
  (forall res, r = inr res ->
     In TsDecode (test_stages tr) /\
     (is_Some res.2 <-> with_mask self = true)).

(** The box decodings of a run: the RoIs, the configuration and the
    [rescale] flag [get_det_bboxes] was called with. *)
Definition decode_calls (tr : list Event) : list (Rois * Cfg * bool) :=
  omap (fun ev => match ev with
                  | EvGetDetBboxes rois _ _ cfg rescale =>
                      Some (rois, cfg, rescale)
                  | _ => None
                  end) tr.

(** How the boxes flow through a returned [simple_test]: the first pass
    runs on the given proposals, or on those of [simple_test_rpn] with
    [test_cfg.rpn]; the refinement pass pools from the boxes of the first
    pass as they were returned; and the refined boxes are decoded once,
    from those RoIs, with [test_cfg.rcnn] and the same [rescale] flag. *)
Definition test_data_flow (self : Detector) (img : Tensor4)
    (img_meta : list ImgMeta) (proposals : option (list Boxes))
    (rescale : bool)
    (r : Exc (BboxResult * option SegmResult)) (tr : list Event) : Prop :=
  match r with
  | inl _ => True
  | inr _ =>
      let x := extract_feat self img in
      exists rcnn proposal_list,
        getattr (test_cfg self) "rcnn" = inr rcnn /\
        match proposals with
        | Some p => proposal_list = p
        | None =>
            exists rpn_cfg,
              getattr (test_cfg self) "rpn" = inr rpn_cfg /\
              proposal_list = simple_test_rpn self x img_meta rpn_cfg
        end /\
        let first_pass :=
          simple_test_bboxes self x img_meta proposal_list rcnn rescale in
        let rois := bbox2roi self (BoxTensor first_pass.1) in
        head (mask_roi_calls tr) = Some rois /\
        decode_calls tr = [(rois, rcnn, rescale)]
  end.

(** The features the box head was called on, in order. *)
Definition bbox_head_inputs (tr : list Event) : list Tensor4 :=
  omap (fun ev => match ev with
                  | EvBboxHead feats => Some feats
                  | _ => None
                  end) tr.

(** The loss mapping [d] of the RPN stage: what [rpn_head.loss] returns on
    the RPN outputs for the features of the batch, with [train_cfg.rpn];
    nothing when the detector has no RPN. *)
Definition rpn_stage_loss (self : Detector) (img : Tensor4)
    (img_meta : list ImgMeta) (gt_bboxes : list Boxes)
    (gt_bboxes_ignore : option (list (option Boxes)))
    (d : LossDict) : Prop :=
  if with_rpn self then
    exists cfg,
      getattr (train_cfg self) "rpn" = inr cfg /\
      d = rpn_head_loss self (rpn_head self (extract_feat self img))
                        gt_bboxes img_meta cfg gt_bboxes_ignore
  else d = ∅.

(** The loss mapping [d] of the box stage: what [bbox_head.loss] returns
    on the outputs of the box head and the box targets of the sampling
    results [srs]; nothing when the detector has no box head. *)
Definition bbox_stage_loss (self : Detector) (gt_bboxes : list Boxes)
    (gt_labels : list Labels) (srs : list SamplingResult)
    (tr : list Event) (d : LossDict) : Prop :=
  if with_bbox self then
    exists bbox_feats rcnn,
      bbox_head_inputs tr = [bbox_feats] /\
      getattr (train_cfg self) "rcnn" = inr rcnn /\
      let out := bbox_head self bbox_feats in
      d = bbox_head_loss self out.1 out.2
            (bbox_head_get_target self srs gt_bboxes gt_labels rcnn)
  else d = ∅.

(** The loss mappings of the mask stage and of the refinement stage: what
    [mask_head.loss] returns on the mask prediction, the mask targets and
    the positive labels of [srs], and what [mask_iou_head.loss] returns on
    the outputs of the refinement head and its targets; nothing, and no
    call of the refinement head, when the detector has no mask head. *)
Definition mask_stage_losses (self : Detector) (gt_bboxes : list Boxes)
    (gt_labels : list Labels) (gt_masks : option GtMasks)
    (srs : list SamplingResult) (tr : list Event)
    (d_mask d_refine : LossDict) : Prop :=
  if with_mask self then
    exists mask_feats refine_feats hint rcnn test_rcnn pos_labels,
      mask_head_inputs tr = [mask_feats] /\
      refinement_calls tr = [(refine_feats, hint)] /\
      getattr (train_cfg self) "rcnn" = inr rcnn /\
      getattr (test_cfg self) "rcnn" = inr test_rcnn /\
      torch_cat (map pos_gt_labels srs) = inr pos_labels /\
      let targets := mask_head_get_target self srs gt_masks rcnn in
      let out := mask_iou_head self refine_feats hint in
      d_mask = mask_head_loss self (mask_head self mask_feats)
                              targets.1 targets.2 pos_labels test_rcnn /\
      d_refine = mask_iou_head_loss self out.1 out.2
                   (mask_iou_head_get_target self srs gt_bboxes gt_labels rcnn)
  else d_mask = ∅ /\ d_refine = ∅ /\ refinement_calls tr = [].

(** What a returned loss mapping is made of: the mappings of the four
    stages, in the order of the updates; the log holds one loss computation
    for each enabled stage and none for a disabled one; and every
    [get_target] call was given the sampling results [srs]. *)
Definition enabled_stage_losses (self : Detector) (img : Tensor4)
    (img_meta : list ImgMeta) (gt_bboxes : list Boxes)
    (gt_labels : list Labels)
    (gt_bboxes_ignore : option (list (option Boxes)))
    (gt_masks : option GtMasks)
    (r : Exc LossDict) (tr : list Event) : Prop :=
  match r with
  | inl _ => True
  | inr losses =>
      exists (srs : list SamplingResult) (d_rpn d_bbox d_mask d_refine : LossDict),
        Forall (fun given => given = srs) (target_inputs tr) /\
        rpn_stage_loss self img img_meta gt_bboxes gt_bboxes_ignore d_rpn /\
        bbox_stage_loss self gt_bboxes gt_labels srs tr d_bbox /\
        mask_stage_losses self gt_bboxes gt_labels gt_masks srs tr
                          d_mask d_refine /\
        loss_events tr
        = List.filter (fun sd : Stage * LossDict => stage_enabled self sd.1)
            [(StRpn, d_rpn); (StBbox, d_bbox); (StMask, d_mask);
             (StRefine, d_refine)] /\
        losses = d_refine ∪ (d_mask ∪ (d_bbox ∪ d_rpn)) /\
        dom losses =@{gset string}
          dom d_rpn ∪ dom d_bbox ∪ dom d_mask ∪ dom d_refine
  end.


(* ===================================================================== *)
(** ** Comparison lemmas for binary32 values *)
(* ===================================================================== *)

Lemma SFcompare_antisym (a b : f32) :
  SFcompare b a = option_map CompOpp (SFcompare a b).
Proof.
  destruct a as [sa|sa| |sa ma ea], b as [sb|sb| |sb mb eb]; simpl;
    try reflexivity;
    try (destruct sa; reflexivity); try (destruct sb; reflexivity);
    try (destruct sa, sb; reflexivity).
  destruct sa, sb; simpl; try reflexivity;
    rewrite (Z.compare_antisym ea eb);
    destruct (ea ?= eb)%Z; simpl; try reflexivity;
    rewrite (Pos.compare_cont_antisym ma mb Eq); simpl;
    try rewrite CompOpp_involutive; reflexivity.
Qed.

(** [>=] is [>] or [==]. *)
Lemma geb_gtb_eqb (v thr : f32) : geb v thr = gtb v thr || eqb v thr.
Proof.
  unfold geb, gtb, eqb, SFleb, SFltb, SFeqb.
  rewrite (SFcompare_antisym thr v).
  destruct (SFcompare thr v) as [[]|]; reflexivity.
Qed.

(** [>] excludes [==]. *)
Lemma gtb_eqb_false (v thr : f32) : eqb v thr = true -> gtb v thr = false.
Proof.
  unfold gtb, eqb, SFltb, SFeqb.
  rewrite (SFcompare_antisym thr v).
  destruct (SFcompare thr v) as [[]|]; simpl; congruence.
Qed.

(** [a > b] excludes [b >= a]. *)
Lemma gtb_not_geb (a b : f32) : gtb a b = true -> geb b a = false.
Proof.
  unfold gtb, geb, SFltb, SFleb.
  rewrite (SFcompare_antisym b a).
  destruct (SFcompare b a) as [[]|]; simpl; congruence.
Qed.

(** [a >= b] excludes [b > a]. *)
Lemma geb_not_gtb (a b : f32) : geb a b = true -> gtb b a = false.
Proof.
  unfold gtb, geb, SFltb, SFleb.
  rewrite (SFcompare_antisym b a).
  destruct (SFcompare b a) as [[]|]; simpl; congruence.
Qed.

Lemma of_bool_hard (b : bool) : is_hard (of_bool b).
Proof. destruct b; [right | left]; reflexivity. Qed.

(* ===================================================================== *)
(** ** Elementwise operations on tensors *)
(* ===================================================================== *)

Lemma tmap4_all4 (P : f32 -> Prop) (f : f32 -> f32) (t : Tensor4) :
  (forall v, P (f v)) -> all4 P (tmap4 f t).
Proof.
  intros Hf. unfold all4, tmap4.
  repeat (apply Forall_map, Forall_forall; intros ? _).
  apply Hf.
Qed.

Lemma tmap4_fixed (f : f32 -> f32) (t : Tensor4) :
  all4 (fun v => f v = v) t -> tmap4 f t = t.
Proof.
  unfold all4, tmap4. intros H.
  induction H as [|r t Hr _ IH]; simpl; [reflexivity|]. f_equal; [|exact IH].
  induction Hr as [|c r Hc _ IHr]; simpl; [reflexivity|]. f_equal; [|exact IHr].
  induction Hc as [|w c Hw _ IHc]; simpl; [reflexivity|]. f_equal; [|exact IHc].
  induction Hw as [|v w Hv _ IHw]; simpl; [reflexivity|]. f_equal; assumption.
Qed.

Lemma all4_impl (P Q : f32 -> Prop) (t : Tensor4) :
  (forall v, P v -> Q v) -> all4 P t -> all4 Q t.
Proof.
  intros HPQ H. unfold all4 in *.
  do 3 (eapply Forall_impl; [eassumption|]; clear H; intros ? H).
  eapply Forall_impl; [eassumption|]. exact HPQ.
Qed.

Lemma binarize_ge_hard (thr : f32) (t : Tensor4) : hard_mask (binarize_ge thr t).
Proof. apply tmap4_all4. intros v. apply of_bool_hard. Qed.

Lemma binarize_gt_hard (thr : f32) (t : Tensor4) : hard_mask (binarize_gt thr t).
Proof. apply tmap4_all4. intros v. apply of_bool_hard. Qed.

Lemma binarize_ge_length (thr : f32) (t : Tensor4) :
  length (binarize_ge thr t) = length t.
Proof. unfold binarize_ge, tmap4. apply length_map. Qed.

Lemma binarize_gt_length (thr : f32) (t : Tensor4) :
  length (binarize_gt thr t) = length t.
Proof. unfold binarize_gt, tmap4. apply length_map. Qed.

Lemma drop_background_length (t : Tensor4) :
  length (drop_background t) = length t.
Proof. unfold drop_background. apply length_map. Qed.

(* ===================================================================== *)
(** ** Reasoning about the call log *)
(* ===================================================================== *)

Lemma trace_ok_ret {A} P (a : A) : trace_ok P (ret a).
Proof. constructor. Qed.

Lemma trace_ok_raise {A} P e : trace_ok P (@raise A e).
Proof. constructor. Qed.

Lemma trace_ok_lift {A} P (r : Exc A) : trace_ok P (lift r).
Proof. constructor. Qed.

Lemma trace_ok_local {A} P name (v : option A) : trace_ok P (local name v).
Proof. destruct v; constructor. Qed.

Lemma trace_ok_call {A} (P : Event -> Prop) ev (v : A) :
  P ev -> trace_ok P (call ev v).
Proof. intros H. unfold trace_ok; simpl. repeat constructor. exact H. Qed.

Lemma trace_ok_bind {A B} P (m : M A) (f : A -> M B) :
  trace_ok P m -> (forall a, trace_ok P (f a)) -> trace_ok P (m ≫= f).
Proof.
  unfold trace_ok, mbind, M_bind, bind. intros Hm Hf.
  destruct m as [[e|a] tr]; simpl in *; [exact Hm|].
  specialize (Hf a). destruct (f a) as [r tr']; simpl in *.
  apply Forall_app; split; assumption.
Qed.

Lemma trace_ok_for_each {A B} P (body : A -> M B) (items : list A) :
  (forall i, trace_ok P (body i)) -> trace_ok P (for_each body items).
Proof.
  intros Hbody. induction items as [|i rest IH]; simpl.
  - apply trace_ok_ret.
  - apply trace_ok_bind; [apply Hbody|]. intros r.
    apply trace_ok_bind; [exact IH|]. intros rs. apply trace_ok_ret.
Qed.

(** One step of a proof that walks through a monadic body. *)
Ltac trace_step :=
  lazymatch goal with
  | |- trace_ok _ (_ ≫= _) => apply trace_ok_bind; [|intros ?]
  | |- trace_ok _ (ret _) => apply trace_ok_ret
  | |- trace_ok _ (raise _) => apply trace_ok_raise
  | |- trace_ok _ (lift _) => apply trace_ok_lift
  | |- trace_ok _ (local _ _) => apply trace_ok_local
  | |- trace_ok _ (call_loss _ _) => apply trace_ok_call; exact I
  | |- trace_ok _ (call _ _) => apply trace_ok_call; try exact I
  | |- trace_ok _ (for_each _ _) => apply trace_ok_for_each; intros ?
  | |- trace_ok _ (if ?b then _ else _) => destruct b
  | |- trace_ok _ (match ?p with _ => _ end) => destruct p
  | |- trace_ok _ (let _ := _ in _) => cbv zeta
  end.

Lemma through_shared_head_trace self P feats :
  P (EvSharedHead feats) -> trace_ok P (through_shared_head self feats).
Proof.
  intros H. unfold through_shared_head.
  destruct (with_shared_head self);
    [apply trace_ok_call; exact H | apply trace_ok_ret].
Qed.

Lemma select_refine_feats_trace self P cfg x feats name rois :
  (forall f r, P (EvBboxRoIExtractor f r)) ->
  (forall t s, P (EvInterpolate t s)) ->
  trace_ok P (select_refine_feats self cfg x feats name rois).
Proof.
  intros Hroi Hint. unfold select_refine_feats.
  repeat (trace_step; try apply Hroi; try apply Hint).
Qed.

Lemma assign_and_sample_trace self P ac sc x pl gb gi gl i :
  P (EvAssign i) -> P (EvSample i) ->
  trace_ok P (assign_and_sample self ac sc x pl gb gi gl i).
Proof.
  intros Ha Hs. unfold assign_and_sample.
  repeat (trace_step; try assumption).
Qed.

Lemma forward_train_masks_hard self img img_meta gt_bboxes gt_labels
    gt_bboxes_ignore gt_masks proposals :
  trace_ok refine_mask_hard
    (forward_train self img img_meta gt_bboxes gt_labels gt_bboxes_ignore
                   gt_masks proposals).
Proof.
  unfold forward_train.
  repeat first
    [ apply through_shared_head_trace; exact I
    | apply select_refine_feats_trace; intros; exact I
    | apply assign_and_sample_trace; exact I
    | apply trace_ok_call; simpl; apply binarize_ge_hard
    | trace_step ].
Qed.

Example demo_train_runs :
  let m := Demo.train (Demo.standard (Some (CfgStr "resample")) Demo.one_det) in
  returned m = true /\ refinement_masks m.2 = [[[[[one; one; one]]]]].
Proof. split; vm_compute; reflexivity. Qed.

Lemma refine_test_bboxes_masks_hard self x img_meta proposals cfg rescale :
  trace_ok refine_mask_hard
    (refine_test_bboxes self x img_meta proposals cfg rescale).
Proof.
  unfold refine_test_bboxes.
  repeat first
    [ apply through_shared_head_trace; exact I
    | apply select_refine_feats_trace; intros; exact I
    | apply trace_ok_call; simpl; apply binarize_gt_hard
    | trace_step ].
Qed.

Lemma simple_test_mask_trace self P x img_meta det_bboxes det_labels rescale :
  (forall f r, P (EvMaskRoIExtractor f r)) ->
  (forall t, P (EvSharedHead t)) ->
  (forall t, P (EvMaskHead t)) ->
  (forall t b, P (EvGetSegMasks t b)) ->
  trace_ok P (simple_test_mask self x img_meta det_bboxes det_labels rescale).
Proof.
  intros Hroi Hsh Hmh Hseg. unfold simple_test_mask.
  repeat first
    [ apply through_shared_head_trace; apply Hsh
    | apply trace_ok_call; first [apply Hroi | apply Hmh | apply Hseg]
    | trace_step ].
Qed.

Lemma simple_test_masks_hard self img img_meta proposals rescale :
  trace_ok refine_mask_hard (simple_test self img img_meta proposals rescale).
Proof.
  unfold simple_test.
  repeat first
    [ apply refine_test_bboxes_masks_hard
    | apply simple_test_mask_trace; intros; exact I
    | trace_step ].
Qed.

(** C4.  Every tensor passed as the mask argument to the refinement head
    ([mask_iou_head]) holds only the values 0.0 and 1.0: in
    [forward_train], in [refine_test_bboxes] and in [simple_test], every
    logged call of the refinement head has a hard mask, whatever the
    configuration, the inputs and the outcome of the run. *)
Theorem refinement_head_never_sees_soft_masks (self : Detector) :
  (forall img img_meta gt_bboxes gt_labels gt_bboxes_ignore gt_masks proposals,
      trace_ok refine_mask_hard
        (forward_train self img img_meta gt_bboxes gt_labels gt_bboxes_ignore
                       gt_masks proposals)) /\
  (forall x img_meta proposals rcnn_test_cfg rescale,
      trace_ok refine_mask_hard
        (refine_test_bboxes self x img_meta proposals rcnn_test_cfg rescale)) /\
  (forall img img_meta proposals rescale,
      trace_ok refine_mask_hard
        (simple_test self img img_meta proposals rescale)).
Proof.
  split; [|split]; intros.
  - apply forward_train_masks_hard.
  - apply refine_test_bboxes_masks_hard.
  - apply simple_test_masks_hard.
Qed.

Example demo_test_runs :
  let m := Demo.test (Demo.nested (Some (CfgStr "interpolate")) Demo.one_det) in
  returned m = true /\ refinement_masks m.2 = [[[[[zero; one; one]]]]].
Proof. split; vm_compute; reflexivity. Qed.

(* ===================================================================== *)
(** ** Binarization: idempotence and the tie at the threshold *)
(* ===================================================================== *)

Lemma binarize_ge_fixed (thr : f32) (t : Tensor4) :
  gtb thr zero = true -> geb one thr = true ->
  hard_mask t -> binarize_ge thr t = t.
Proof.
  intros Hlo Hhi Ht. apply tmap4_fixed.
  eapply all4_impl; [|exact Ht]. intros v [-> | ->].
  - rewrite (gtb_not_geb _ _ Hlo). reflexivity.
  - rewrite Hhi. reflexivity.
Qed.

Lemma binarize_gt_fixed (thr : f32) (t : Tensor4) :
  geb thr zero = true -> gtb one thr = true ->
  hard_mask t -> binarize_gt thr t = t.
Proof.
  intros Hlo Hhi Ht. apply tmap4_fixed.
  eapply all4_impl; [|exact Ht]. intros v [-> | ->].
  - rewrite (geb_not_gtb _ _ Hlo). reflexivity.
  - rewrite Hhi. reflexivity.
Qed.

(** C9, as amended.  The comparison uses the binary32 value [thr] of the
    configured threshold [c].  Binarizing a mask whose entries are only 0.0
    and 1.0 returns the identical mask when [thr] lies in the range where
    the comparison separates the two values: [0 < thr <= 1] for the
    training binarization ([>=]) and [0 <= thr < 1] for the inference
    binarization ([>]); in particular when [thr] is strictly between 0
    and 1. *)
Theorem binarization_idempotent_inside_unit_interval (c : f64) (t : Tensor4) :
  let thr := of_float c in
  hard_mask t ->
  (gtb thr zero = true -> geb one thr = true -> binarize_ge thr t = t) /\
  (geb thr zero = true -> gtb one thr = true -> binarize_gt thr t = t).
Proof.
  intros thr Ht. split; intros Hlo Hhi.
  - apply binarize_ge_fixed; assumption.
  - apply binarize_gt_fixed; assumption.
Qed.

Lemma hard_mask_zero_one : hard_mask [[[[zero; one]]]].
Proof.
  unfold hard_mask, all4.
  repeat first [apply Forall_nil_2 | apply Forall_cons_2];
    [left | right]; reflexivity.
Qed.

Lemma binarization_idempotent_witness :
  hard_mask [[[[zero; one]]]] /\
  binarize_ge half [[[[zero; one]]]] = [[[[zero; one]]]] /\
  binarize_gt half [[[[zero; one]]]] = [[[[zero; one]]]].
Proof.
  pose proof hard_mask_zero_one as H.
  split; [exact H|].
  destruct (binarization_idempotent_inside_unit_interval half _ H) as [Hge Hgt].
  split; [apply Hge | apply Hgt]; reflexivity.
Defined.

(** A configured threshold strictly between 0 and 1 can have the binary32
    value 1.0 or 0.0, and the binarization is then not idempotent:
    0.99999999 is compared as 1.0, and 1e-46 as 0.0. *)
Lemma threshold_rounding_reaches_the_endpoints :
  (inside_unit_interval just_below_one = true /\
   of_float just_below_one = one /\
   binarize_gt (of_float just_below_one) [[[[zero; one]]]]
   = [[[[zero; zero]]]]) /\
  (inside_unit_interval tiny = true /\
   of_float tiny = zero /\
   binarize_ge (of_float tiny) [[[[zero; one]]]] = [[[[one; one]]]]).
Proof. repeat split; vm_compute; reflexivity. Qed.

(** C9, as stated, fails at the ends of the unit interval: at threshold
    0.0 the training binarization sends the entry 0.0 to 1.0, and at
    threshold 1.0 the inference binarization sends the entry 1.0 to 0.0. *)
Lemma binarization_not_idempotent_at_endpoints :
  hard_mask [[[[zero; one]]]] /\
  binarize_ge zero [[[[zero; one]]]] = [[[[one; one]]]] /\
  binarize_ge zero [[[[zero; one]]]] <> [[[[zero; one]]]] /\
  binarize_gt one [[[[zero; one]]]] = [[[[zero; zero]]]] /\
  binarize_gt one [[[[zero; one]]]] <> [[[[zero; one]]]].
Proof.
  split; [exact hard_mask_zero_one|].
  repeat split; try reflexivity; vm_compute; discriminate.
Qed.

Lemma lookup_map {A B} (f : A -> B) (l : list A) (i : nat) :
  map f l !! i = f <$> l !! i.
Proof. exact (list_lookup_fmap f l i). Qed.

Lemma entry4_tmap4 (f : f32 -> f32) (t : Tensor4) (i j k l : nat) :
  entry4 (tmap4 f t) i j k l = f <$> entry4 t i j k l.
Proof.
  unfold entry4, tmap4, Tensor4 in *. rewrite lookup_map.
  destruct (t !! i) as [r|]; [simpl|reflexivity]. rewrite lookup_map.
  destruct (r !! j) as [ch|]; [simpl|reflexivity]. rewrite lookup_map.
  destruct (ch !! k) as [row|]; [simpl|reflexivity]. apply lookup_map.
Qed.

Lemma tmap4_ext_all4 (f g : f32 -> f32) (t : Tensor4) :
  all4 (fun v => f v = g v) t -> tmap4 f t = tmap4 g t.
Proof.
  unfold all4, tmap4. intros H.
  apply map_ext_Forall; eapply Forall_impl; [exact H|].
  intros r Hr; apply map_ext_Forall; eapply Forall_impl; [exact Hr|].
  intros ch Hch; apply map_ext_Forall; eapply Forall_impl; [exact Hch|].
  intros row Hrow; apply map_ext_Forall; exact Hrow.
Qed.

(** C10, as amended.  The comparison uses the binary32 value [thr] of the
    configured threshold [c].  At every position of every mask prediction,
    an entry equal to [thr] ([==]) is sent to 1.0 by the training
    binarization ([>=], line 168) and to 0.0 by the inference binarization
    ([>], line 249); at an entry that is not equal to [thr] the two masks
    have the same value, 1.0 above the threshold and 0.0 otherwise.  So
    the two masks of a prediction are equal when no entry equals [thr]. *)
Theorem binarization_differs_only_at_threshold (c : f64) (t : Tensor4) :
  let thr := of_float c in
  (forall i j k l v,
     entry4 t i j k l = Some v ->
     (eqb v thr = true ->
        entry4 (binarize_ge thr t) i j k l = Some one /\
        entry4 (binarize_gt thr t) i j k l = Some zero) /\
     (eqb v thr = false ->
        entry4 (binarize_ge thr t) i j k l
        = entry4 (binarize_gt thr t) i j k l /\
        entry4 (binarize_gt thr t) i j k l = Some (of_bool (gtb v thr)))) /\
  (all4 (fun v => eqb v thr = false) t ->
     binarize_ge thr t = binarize_gt thr t).
Proof.
  intros thr. split.
  - intros i j k l v Hv. unfold binarize_ge, binarize_gt.
    rewrite !entry4_tmap4, Hv. simpl. rewrite geb_gtb_eqb.
    split; intros H.
    + rewrite (gtb_eqb_false _ _ H), H. split; reflexivity.
    + rewrite H, orb_false_r. split; reflexivity.
  - intros H. unfold binarize_ge, binarize_gt. apply tmap4_ext_all4.
    eapply all4_impl; [|exact H]. intros v Hv. simpl.
    rewrite geb_gtb_eqb, Hv, orb_false_r. reflexivity.
Qed.

Lemma binarization_differs_only_at_threshold_witness :
  let t : Tensor4 := [[[[three_quarters; half]; [zero; half]]]] in
  (entry4 (binarize_ge (of_float half) t) 0 0 1 1 = Some one /\
   entry4 (binarize_gt (of_float half) t) 0 0 1 1 = Some zero) /\
  entry4 (binarize_ge (of_float half) t) 0 0 0 0
  = entry4 (binarize_gt (of_float half) t) 0 0 0 0.
Proof.
  intros t.
  pose proof (proj1 (binarization_differs_only_at_threshold half t)) as H.
  split.
  - apply (proj1 (H 0 0 1 1 half eq_refl))%nat. reflexivity.
  - apply (proj2 (H 0 0 0 0 three_quarters eq_refl))%nat. reflexivity.
Defined.

(** C10, as stated, fails for a configured threshold that is not a
    binary32 value.  With the threshold 0.3, the mask entry
    0.300000011920928955078125 (the binary32 value nearest to 0.3) is not
    equal to the configured threshold, it is above it; and yet the training
    binarization sends it to 1.0 and the inference binarization to 0.0. *)
Lemma binarizations_differ_off_the_configured_threshold :
  SFeqb (to_double three_tenths_f32) three_tenths = false /\
  SFltb three_tenths (to_double three_tenths_f32) = true /\
  of_float three_tenths = three_tenths_f32 /\
  binarize_ge (of_float three_tenths) [[[[three_tenths_f32]]]] = [[[[one]]]] /\
  binarize_gt (of_float three_tenths) [[[[three_tenths_f32]]]] = [[[[zero]]]].
Proof. repeat split; vm_compute; reflexivity. Qed.

(* ===================================================================== *)
(** ** The three-way [refine_sample] choice *)
(* ===================================================================== *)

Lemma policy_of_inv cfg policy :
  policy_of cfg = inr policy ->
  exists rcnn, getattr cfg "rcnn" = inr rcnn /\
               getattr rcnn "refine_sample" = inr policy.
Proof.
  unfold policy_of. destruct (getattr cfg "rcnn") as [e|rcnn]; [discriminate|].
  intros H. exists rcnn. split; [reflexivity | exact H].
Qed.

(** [refine_sample == 'resample']: the box-RoI extractor is called on the
    RoIs, when the variable holding them is bound. *)
Lemma select_refine_feats_resample self cfg x feats name rois policy :
  policy_of cfg = inr policy -> cfg_eq_str policy "resample" = true ->
  select_refine_feats self cfg x feats name (Some rois)
  = call (EvBboxRoIExtractor (take (num_inputs (bbox_roi_extractor self)) x) rois)
         (roi_forward (bbox_roi_extractor self)
                      (take (num_inputs (bbox_roi_extractor self)) x) rois).
Proof.
  intros Hp Heq. apply policy_of_inv in Hp as (rcnn & Hr & Hs).
  unfold select_refine_feats. rewrite Hr. simpl. rewrite Hs. simpl.
  rewrite Heq. reflexivity.
Qed.

(** [refine_sample == 'resample'] with the RoI variable unbound: the
    extractor is not called, the lookup of the variable raises. *)
Lemma select_refine_feats_resample_unbound self cfg x feats name policy :
  policy_of cfg = inr policy -> cfg_eq_str policy "resample" = true ->
  select_refine_feats self cfg x feats name None
  = (inl (UnboundLocalError name), []).
Proof.
  intros Hp Heq. apply policy_of_inv in Hp as (rcnn & Hr & Hs).
  unfold select_refine_feats. rewrite Hr. simpl. rewrite Hs. simpl.
  rewrite Heq. reflexivity.
Qed.

(** [refine_sample == 'interpolate']: the pooled features are resized to
    7 x 7, and no RoI extractor is called. *)
Lemma select_refine_feats_interpolate self cfg x feats name rois policy :
  policy_of cfg = inr policy -> cfg_eq_str policy "resample" = false ->
  cfg_eq_str policy "interpolate" = true ->
  select_refine_feats self cfg x feats name rois
  = call (EvInterpolate feats (7, 7)) (F_interpolate self feats (7, 7)).
Proof.
  intros Hp Hne Heq. apply policy_of_inv in Hp as (rcnn & Hr & Hs).
  unfold select_refine_feats. rewrite Hr. simpl. rewrite Hs. simpl.
  rewrite Hne. simpl. rewrite Heq. reflexivity.
Qed.

(** Any other value: [F.max_pool2d] is called without its kernel size and
    raises. *)
Lemma select_refine_feats_fallback self cfg x feats name rois policy :
  policy_of cfg = inr policy -> cfg_eq_str policy "resample" = false ->
  cfg_eq_str policy "interpolate" = false ->
  select_refine_feats self cfg x feats name rois
  = (inl (TypeError
            "max_pool2d() missing 1 required positional argument: 'kernel_size'"),
     []).
Proof.
  intros Hp Hne Hni. apply policy_of_inv in Hp as (rcnn & Hr & Hs).
  unfold select_refine_feats. rewrite Hr. simpl. rewrite Hs. simpl.
  rewrite Hne. simpl. rewrite Hni. reflexivity.
Qed.

(** A missing [refine_sample] key: the first lookup raises. *)
Lemma select_refine_feats_missing self cfg x feats name rois e :
  policy_of cfg = inl e ->
  select_refine_feats self cfg x feats name rois = (inl e, []).
Proof.
  unfold policy_of, select_refine_feats. intros Hp.
  destruct (getattr cfg "rcnn") as [e'|rcnn]; simpl.
  - congruence.
  - rewrite Hp. reflexivity.
Qed.

(* ===================================================================== *)
(** ** Walking through a run: outcome and call log together *)
(* ===================================================================== *)

Lemma outcome_bind {A B} (m : M A) (f : A -> M B) Q :
  outcome m (fun r tr =>
               match r with
               | inl e => Q (inl e) tr
               | inr a => outcome (f a) (fun r' tr' => Q r' (tr ++ tr'))
               end) ->
  outcome (m ≫= f) Q.
Proof.
  unfold outcome, mbind, M_bind, bind.
  destruct m as [[e|a] tr]; simpl; [auto|].
  destruct (f a); simpl. auto.
Qed.

Lemma outcome_ret {A} (a : A) Q : Q (inr a) [] -> outcome (ret a) Q.
Proof. auto. Qed.

Lemma outcome_raise {A} e (Q : Exc A -> list Event -> Prop) :
  Q (inl e) [] -> outcome (raise e) Q.
Proof. auto. Qed.

Lemma outcome_lift {A} (r : Exc A) Q : Q r [] -> outcome (lift r) Q.
Proof. auto. Qed.

Lemma outcome_call {A} ev (v : A) Q : Q (inr v) [ev] -> outcome (call ev v) Q.
Proof. auto. Qed.

Lemma outcome_local {A} name (v : option A) Q :
  match v with
  | Some a => Q (inr a) []
  | None => Q (inl (UnboundLocalError name)) []
  end ->
  outcome (local name v) Q.
Proof. destruct v; auto. Qed.

Lemma outcome_trace_ok {A} P (m : M A) (Q : Exc A -> list Event -> Prop) :
  trace_ok P m -> (forall r tr, Forall P tr -> Q r tr) -> outcome m Q.
Proof. unfold trace_ok, outcome. auto. Qed.

Ltac run_step :=
  lazymatch goal with
  | |- outcome (_ ≫= _) _ => apply outcome_bind
  | |- outcome (ret _) _ => apply outcome_ret; cbv beta
  | |- outcome (raise _) _ => apply outcome_raise; cbv beta
  | |- outcome (lift _) _ => apply outcome_lift; cbv beta
  | |- outcome (call_loss _ _) _ => apply outcome_call; cbv beta
  | |- outcome (call _ _) _ => apply outcome_call; cbv beta
  | |- outcome (local _ _) _ => apply outcome_local; cbv beta
  | |- outcome (through_shared_head _ _) _ => unfold through_shared_head
  | |- outcome (select_refine_feats _ _ _ _ _ _) _ =>
      unfold select_refine_feats
  | |- outcome (if ?b then _ else _) _ => destruct b eqn:?
  | |- outcome (match ?p with _ => _ end) _ => destruct p eqn:?
  | |- outcome (let _ := _ in _) _ => cbv zeta
  | |- match ?r with _ => _ end => destruct r eqn:?
  end.

Lemma for_each_sampling self ac sc x pl gb gi gl items :
  trace_ok sampling_event
    (for_each (assign_and_sample self ac sc x pl gb gi gl) items).
Proof.
  apply trace_ok_for_each. intros i.
  apply assign_and_sample_trace; exact I.
Qed.

Lemma loss_events_app tr1 tr2 :
  loss_events (tr1 ++ tr2) = loss_events tr1 ++ loss_events tr2.
Proof. apply omap_app. Qed.

Lemma loss_events_sampling tr : Forall sampling_event tr -> loss_events tr = [].
Proof.
  induction 1 as [|ev tr Hev _ IH]; [reflexivity|].
  destruct ev; try contradiction; exact IH.
Qed.

Lemma refinement_masks_app tr1 tr2 :
  refinement_masks (tr1 ++ tr2) = refinement_masks tr1 ++ refinement_masks tr2.
Proof. apply omap_app. Qed.

Lemma refinement_masks_sampling tr :
  Forall sampling_event tr -> refinement_masks tr = [].
Proof.
  induction 1 as [|ev tr Hev _ IH]; [reflexivity|].
  destruct ev; try contradiction; exact IH.
Qed.

(* ===================================================================== *)
(** ** Runs that return *)
(* ===================================================================== *)

Lemma returned_inv {A} (m : M A) :
  returned m = true -> exists a tr, m = (inr a, tr).
Proof.
  unfold returned. destruct m as [[e|a] tr]; simpl; [discriminate|].
  intros _. exists a, tr. reflexivity.
Qed.

(* ===================================================================== *)
(** ** Which statement raises which exception *)
(* ===================================================================== *)

Lemma getattr_inl c k e : getattr c k = inl e -> e = AttributeError k.
Proof.
  unfold getattr. destruct c; try congruence.
  destruct (assoc k items); congruence.
Qed.

Lemma cfg_get_inl c k d e : cfg_get c k d = inl e -> e = AttributeError "get".
Proof. unfold cfg_get. destruct c; congruence. Qed.

Lemma py_index_inl {A} (l : list A) i e : py_index l i = inl e -> lookup_error e.
Proof. unfold py_index. destruct (l !! i); [discriminate|]. intros [= <-]. exact I. Qed.

Lemma py_index_opt_inl {A} (l : option (list A)) i e :
  py_index_opt l i = inl e -> lookup_error e.
Proof.
  destruct l as [l|]; simpl; [apply py_index_inl|]. intros [= <-]. exact I.
Qed.

Lemma level_feats_inl x i e : level_feats x i = inl e -> lookup_error e.
Proof.
  induction x as [|lvl rest IH]; simpl; [discriminate|].
  destruct (py_index lvl i) as [e'|f] eqn:Hi.
  - intros [= <-]. exact (py_index_inl _ _ _ Hi).
  - destruct (level_feats rest i) as [e'|fs]; [|discriminate].
    intros [= <-]. apply IH. reflexivity.
Qed.

Lemma torch_cat_inl {A} (ts : list (list A)) e :
  torch_cat ts = inl e ->
  e = RuntimeError "expected a non-empty list of Tensors".
Proof. destruct ts; simpl; congruence. Qed.

Lemma mask_select_inl {A} (t : list A) inds e :
  mask_select t inds = inl e ->
  e = IndexError "the shape of the mask does not match the tensor".
Proof. unfold mask_select. destruct (Nat.eqb _ _); congruence. Qed.

Lemma as_scalar_inl v e :
  as_scalar v = inl e ->
  e = TypeError "comparison of a Tensor with a non-numeric value".
Proof. destruct v; simpl; congruence. Qed.

Lemma outcome_weaken {A} (m : M A) (Q1 Q2 : Exc A -> list Event -> Prop) :
  outcome m Q1 -> (forall r tr, Q1 r tr -> Q2 r tr) -> outcome m Q2.
Proof. unfold outcome. auto. Qed.

(** The assignment loop logs only its own calls, and raises only when an
    index is out of range or the proposals are [None]. *)
Lemma assign_and_sample_outcome self ac sc x pl gb gi gl i :
  outcome (assign_and_sample self ac sc x pl gb gi gl i)
          (fun r tr => Forall sampling_event tr /\
                       forall e, r = inl e -> lookup_error e).
Proof.
  split; [apply assign_and_sample_trace; exact I|].
  unfold assign_and_sample, mbind, M_bind, bind, lift, call. simpl.
  destruct (py_index_opt pl i) eqn:H1; simpl;
    [intros ? [= <-]; exact (py_index_opt_inl _ _ _ H1)|].
  destruct (py_index gb i) eqn:H2; simpl;
    [intros ? [= <-]; exact (py_index_inl _ _ _ H2)|].
  destruct (py_index gi i) eqn:H3; simpl;
    [intros ? [= <-]; exact (py_index_inl _ _ _ H3)|].
  destruct (py_index gl i) eqn:H4; simpl;
    [intros ? [= <-]; exact (py_index_inl _ _ _ H4)|].
  destruct (level_feats x i) eqn:H5; simpl;
    [intros ? [= <-]; exact (level_feats_inl _ _ _ H5)|].
  discriminate.
Qed.

Lemma for_each_outcome self ac sc x pl gb gi gl items :
  outcome (for_each (assign_and_sample self ac sc x pl gb gi gl) items)
          (fun r tr => Forall sampling_event tr /\
                       forall e, r = inl e -> lookup_error e).
Proof.
  split; [apply for_each_sampling|].
  induction items as [|i rest IH]; simpl; [discriminate|].
  pose proof (assign_and_sample_outcome self ac sc x pl gb gi gl i) as [_ Hb].
  unfold mbind, M_bind, bind.
  destruct (assign_and_sample self ac sc x pl gb gi gl i) as [[e|r] tr];
    simpl in *; [intros e' [= <-]; apply Hb; reflexivity|].
  destruct (for_each _ rest) as [[e|rs] tr']; simpl in *;
    [intros e' [= <-]; apply IH; reflexivity|].
  discriminate.
Qed.

Lemma mask_head_inputs_app tr1 tr2 :
  mask_head_inputs (tr1 ++ tr2) = mask_head_inputs tr1 ++ mask_head_inputs tr2.
Proof. apply omap_app. Qed.

Lemma mask_head_inputs_sampling tr :
  Forall sampling_event tr -> mask_head_inputs tr = [].
Proof.
  induction 1 as [|ev tr Hev _ IH]; [reflexivity|].
  destruct ev; try contradiction; exact IH.
Qed.

Lemma bbox_roi_calls_app tr1 tr2 :
  bbox_roi_calls (tr1 ++ tr2) = bbox_roi_calls tr1 ++ bbox_roi_calls tr2.
Proof. apply omap_app. Qed.

Lemma bbox_roi_calls_sampling tr :
  Forall sampling_event tr -> bbox_roi_calls tr = [].
Proof.
  induction 1 as [|ev tr Hev _ IH]; [reflexivity|].
  destruct ev; try contradiction; exact IH.
Qed.

(** Project the call log of a finished walk onto the summaries. *)
Ltac summarize :=
  repeat match goal with
  | H : Forall sampling_event _ |- _ =>
      rewrite ?loss_events_app, ?refinement_masks_app, ?mask_head_inputs_app,
        ?bbox_roi_calls_app,
        ?(loss_events_sampling _ H), ?(refinement_masks_sampling _ H),
        ?(mask_head_inputs_sampling _ H), ?(bbox_roi_calls_sampling _ H);
      clear H
  end;
  rewrite ?loss_events_app, ?refinement_masks_app, ?mask_head_inputs_app,
    ?bbox_roi_calls_app;
  simpl.

(** Name the exception of every failed lookup in the context. *)
Ltac name_errors :=
  repeat match goal with
  | H : getattr _ _ = inl _ |- _ => apply getattr_inl in H; subst
  | H : cfg_get _ _ _ = inl _ |- _ => apply cfg_get_inl in H; subst
  | H : torch_cat _ = inl _ |- _ => apply torch_cat_inl in H; subst
  | H : mask_select _ _ = inl _ |- _ => apply mask_select_inl in H; subst
  | H : as_scalar _ = inl _ |- _ => apply as_scalar_inl in H; subst
  end.

(* ===================================================================== *)
(** ** A missing [refine_sample] key *)
(* ===================================================================== *)

Lemma forward_train_late_report self img img_meta gt_bboxes gt_labels
    gt_bboxes_ignore gt_masks proposals :
  policy_of (train_cfg self) = inl (AttributeError "refine_sample") ->
  outcome (forward_train self img img_meta gt_bboxes gt_labels
                         gt_bboxes_ignore gt_masks proposals)
          (late_report self img).
Proof.
  intros Hpol. unfold forward_train.
  destruct (with_rpn self) eqn:Hrpn, (with_bbox self) eqn:Hbbox,
           (with_mask self) eqn:Hmask; simpl orb.
  all: repeat first
    [ rewrite (select_refine_feats_missing _ _ _ _ _ _ _ Hpol);
      apply outcome_raise; cbv beta
    | eapply outcome_weaken;
      [apply for_each_outcome | intros ? ? [? ?]; cbv beta]
    | run_step ].
  all: unfold late_report, returned; name_errors.
  all: split; [simpl; eexists; reflexivity|].
  all: split; [|try reflexivity; try (intros; congruence)].
  all: intros Heq;
    first
      [ discriminate Heq
      | match goal with
        | H : context [lookup_error] |- _ =>
            exfalso; injection Heq as ->; exact (H _ eq_refl)
        end
      | split; [assumption | split; summarize; [discriminate | tauto]]
      ].
Qed.

(** C7, as amended.  When [refine_sample] is absent from
    [train_cfg.rcnn], [forward_train] makes no check up front: every run
    starts with the feature extraction; the attribute error for the key is
    raised only when the mask head is enabled, and then after the mask head
    ran and the mask loss was computed; with the mask head enabled the run
    does not return a loss mapping, and with the mask head disabled the
    missing key is never reported. *)
Theorem missing_refine_sample_is_reported_at_the_refinement_step
    (self : Detector) img img_meta gt_bboxes gt_labels gt_bboxes_ignore
    gt_masks proposals :
  policy_of (train_cfg self) = inl (AttributeError "refine_sample") ->
  let m := forward_train self img img_meta gt_bboxes gt_labels
                         gt_bboxes_ignore gt_masks proposals in
  (exists tr', m.2 = EvExtractFeat img :: tr') /\
  (m.1 = inl (AttributeError "refine_sample") ->
     with_mask self = true /\
     mask_head_inputs m.2 <> [] /\
     In StMask (map fst (loss_events m.2))) /\
  (with_mask self = true -> returned m = false).
Proof.
  intros Hpol m.
  pose proof (forward_train_late_report self img img_meta gt_bboxes gt_labels
                gt_bboxes_ignore gt_masks proposals Hpol) as H.
  unfold outcome, late_report in H. fold m in H.
  destruct m as [r tr]. exact H.
Qed.

Lemma missing_refine_sample_is_reported_at_the_refinement_step_witness :
  let d := Demo.standard None Demo.one_det in
  let m := Demo.train d in
  policy_of (train_cfg d) = inl (AttributeError "refine_sample") /\
  (exists tr', m.2 = EvExtractFeat Demo.img :: tr') /\
  (m.1 = inl (AttributeError "refine_sample") ->
     with_mask d = true /\
     mask_head_inputs m.2 <> [] /\
     In StMask (map fst (loss_events m.2))) /\
  (with_mask d = true -> returned m = false).
Proof.
  intros d m. split; [reflexivity|].
  apply (missing_refine_sample_is_reported_at_the_refinement_step
           d Demo.img [Demo.meta] [[Demo.box_a]] [[1%Z]] None
           (Some [[[[one]]]]) None).
  reflexivity.
Defined.

(** C7, as stated, fails: with [refine_sample] absent the error is
    raised after the feature extraction, the head forwards and three loss
    computations; and a detector without mask head reports nothing. *)
Lemma missing_refine_sample_is_not_reported_up_front :
  let d := Demo.standard None Demo.one_det in
  let m := Demo.train d in
  policy_of (train_cfg d) = inl (AttributeError "refine_sample") /\
  m.1 = inl (AttributeError "refine_sample") /\
  head m.2 = Some (EvExtractFeat Demo.img) /\
  length (mask_head_inputs m.2) = 1%nat /\
  map fst (loss_events m.2) = [StRpn; StBbox; StMask] /\
  let d' := Demo.detector (Demo.cfg None []) (Demo.cfg None [])
                          true true false false false Demo.one_det in
  policy_of (train_cfg d') = inl (AttributeError "refine_sample") /\
  returned (Demo.train d') = true.
Proof. repeat split; vm_compute; reflexivity. Qed.

(* ===================================================================== *)
(** ** The refinement step on concrete detectors *)
(* ===================================================================== *)

(** C2.  With the mask branch reusing the pooled box features
    ([share_roi_extractor]) and [refine_sample = 'resample'], the training
    step reaches the refinement sub-step (the mask head ran, the mask loss
    was computed) and then raises: [pos_rois] is bound only in the branch
    with separate extractors.  The box-RoI extractor was called once, on
    all the sampled boxes, and never on the positive boxes; the refinement
    head was not called. *)
Theorem resample_with_shared_extractor_raises :
  let d := Demo.shared (Some (CfgStr "resample")) Demo.one_det in
  let m := Demo.train d in
  policy_of (train_cfg d) = inr (CfgStr "resample") /\
  share_roi_extractor d = true /\
  m.1 = inl (UnboundLocalError "pos_rois") /\
  map fst (loss_events m.2) = [StRpn; StBbox; StMask] /\
  bbox_roi_calls m.2 = [[zero :: Demo.box_a; zero :: Demo.box_b]] /\
  refinement_masks m.2 = [].
Proof. repeat split; vm_compute; reflexivity. Qed.

(** C3.  With a [refine_sample] value that is neither ['resample'] nor
    ['interpolate'], training and inference both raise at the fallback:
    [F.max_pool2d] is called without its kernel size.  The refinement head
    is not called. *)
Theorem fallback_policy_raises :
  let d := Demo.nested (Some (CfgStr "maxpool")) Demo.one_det in
  let err := TypeError
    "max_pool2d() missing 1 required positional argument: 'kernel_size'" in
  (Demo.train d).1 = inl err /\
  refinement_masks (Demo.train d).2 = [] /\
  (Demo.refine d Demo.one_det.1).1 = inl err /\
  refinement_masks (Demo.refine d Demo.one_det.1).2 = [] /\
  (Demo.test d).1 = inl err.
Proof. repeat split; vm_compute; reflexivity. Qed.

(** C1.  [simple_test] passes [self.test_cfg.rcnn] to
    [refine_test_bboxes], which reads the threshold at
    [rcnn_test_cfg.rcnn.mask_thr_binary].  With the threshold configured at
    [test_cfg.rcnn.mask_thr_binary] only, inference raises before the
    refinement head is called; with a second threshold in a nested [rcnn]
    section, the mask is binarized at the nested one. *)
Theorem test_threshold_is_read_from_a_nested_section :
  let d := Demo.standard (Some (CfgStr "resample")) Demo.one_det in
  let d2 := Demo.two_thresholds Demo.one_det in
  let soft : Tensor4 := [[[[half; three_quarters; one]]]] in
  (threshold_of (test_cfg d) = inr (CfgFloat half) /\
   (Demo.test d).1 = inl (AttributeError "rcnn") /\
   refinement_masks (Demo.test d).2 = []) /\
  (threshold_of (test_cfg d2) = inr (CfgFloat half) /\
   returned (Demo.test d2) = true /\
   refinement_masks (Demo.test d2).2 = [binarize_gt one soft] /\
   binarize_gt one soft <> binarize_gt half soft).
Proof.
  repeat split; try (vm_compute; reflexivity).
  vm_compute. discriminate.
Qed.

(** The segmentation stage on zero detections: one empty entry per
    foreground class, and no collaborator is called. *)
Lemma simple_test_mask_no_detections self x meta metas det_labels rescale :
  simple_test_mask self x (meta :: metas) [] det_labels rescale
  = (inr (replicate (Z.to_nat (mask_head_num_classes self - 1)) []), []).
Proof. reflexivity. Qed.

(** C8.  On zero provisional detections the segmentation stage returns
    one empty entry per foreground class without a call, but
    [refine_test_bboxes] raises: as [simple_test] calls it, with the
    threshold at [test_cfg.rcnn.mask_thr_binary], the lookup of
    [rcnn_test_cfg.rcnn] fails; and with a [refine_sample] value that is
    neither known name the fallback raises. *)
Theorem zero_detections_refinement_raises :
  let d := Demo.standard (Some (CfgStr "resample")) Demo.no_det in
  let d' := Demo.nested (Some (CfgStr "maxpool")) Demo.no_det in
  (Demo.refine d []).1 = inl (AttributeError "rcnn") /\
  (Demo.test d).1 = inl (AttributeError "rcnn") /\
  (Demo.refine d' []).1
  = inl (TypeError
           "max_pool2d() missing 1 required positional argument: 'kernel_size'") /\
  simple_test_mask d Demo.feats [Demo.meta] [] [] false
  = (inr [[]; []], []).
Proof. repeat split; vm_compute; reflexivity. Qed.

Example zero_detections_pass_with_nested_threshold :
  let d := Demo.nested (Some (CfgStr "resample")) Demo.no_det in
  (Demo.refine d []).1 = inr ([], []) /\
  (Demo.test d).1 = inr ([[]], Some [[]; []]).
Proof. split; vm_compute; reflexivity. Qed.

(* ===================================================================== *)
(** ** The failing paths, for every detector *)
(* ===================================================================== *)

Lemma as_scalar_inr v f :
  as_scalar v = inr f -> exists c, v = CfgFloat c /\ f = of_float c.
Proof.
  destruct v; simpl; try discriminate. intros [= <-]. eexists; split; reflexivity.
Qed.

(** The general form of C2's failure. *)
Lemma forward_train_shared_resample self img img_meta gt_bboxes gt_labels
    gt_bboxes_ignore gt_masks proposals policy :
  with_mask self = true -> share_roi_extractor self = true ->
  policy_of (train_cfg self) = inr policy ->
  cfg_eq_str policy "resample" = true ->
  outcome (forward_train self img img_meta gt_bboxes gt_labels
                         gt_bboxes_ignore gt_masks proposals)
          (fun r tr => returned (r, tr) = false /\ refinement_masks tr = []).
Proof.
  intros Hmask Hshare Hpol Heq. unfold forward_train.
  rewrite Hmask, Hshare.
  destruct (with_rpn self) eqn:Hrpn, (with_bbox self) eqn:Hbbox;
    simpl orb; simpl negb; cbv iota.
  all: repeat first
    [ rewrite (select_refine_feats_resample_unbound _ _ _ _ _ _ Hpol Heq);
      apply outcome_raise; cbv beta
    | apply (outcome_trace_ok sampling_event);
      [apply for_each_sampling | intros ? ? ?; cbv beta]
    | run_step ].
  all: split; [reflexivity | summarize; reflexivity].
Qed.

Lemma forward_train_fallback self img img_meta gt_bboxes gt_labels
    gt_bboxes_ignore gt_masks proposals policy :
  with_mask self = true ->
  policy_of (train_cfg self) = inr policy ->
  cfg_eq_str policy "resample" = false ->
  cfg_eq_str policy "interpolate" = false ->
  outcome (forward_train self img img_meta gt_bboxes gt_labels
                         gt_bboxes_ignore gt_masks proposals)
          (fun r tr => returned (r, tr) = false /\ refinement_masks tr = []).
Proof.
  intros Hmask Hpol Hne Hni. unfold forward_train.
  rewrite Hmask.
  destruct (with_rpn self) eqn:Hrpn, (with_bbox self) eqn:Hbbox;
    simpl orb; cbv iota.
  all: repeat first
    [ rewrite (select_refine_feats_fallback _ _ _ _ _ _ _ Hpol Hne Hni);
      apply outcome_raise; cbv beta
    | apply (outcome_trace_ok sampling_event);
      [apply for_each_sampling | intros ? ? ?; cbv beta]
    | run_step ].
  all: split; [reflexivity | summarize; reflexivity].
Qed.

Lemma refine_test_bboxes_fallback self x img_meta proposals cfg rescale policy :
  policy_of (test_cfg self) = inr policy ->
  cfg_eq_str policy "resample" = false ->
  cfg_eq_str policy "interpolate" = false ->
  outcome (refine_test_bboxes self x img_meta proposals cfg rescale)
          (fun r tr => returned (r, tr) = false /\ refinement_masks tr = []).
Proof.
  intros Hpol Hne Hni. unfold refine_test_bboxes.
  repeat first
    [ rewrite (select_refine_feats_fallback _ _ _ _ _ _ _ Hpol Hne Hni);
      apply outcome_raise; cbv beta
    | run_step ].
  all: split; reflexivity.
Qed.

(** Where [refine_test_bboxes] reads its threshold. *)
Lemma refine_test_bboxes_threshold self x img_meta proposals cfg rescale :
  outcome (refine_test_bboxes self x img_meta proposals cfg rescale)
    (fun r tr =>
       (refinement_masks tr = [] /\ returned (r, tr) = false) \/
       exists thr,
         threshold_of cfg = inr (CfgFloat thr) /\
         refinement_masks tr
         = [binarize_gt (of_float thr)
              (drop_background
                 (mask_head self
                    (roi_forward (mask_roi_extractor self)
                       (take (num_inputs (mask_roi_extractor self)) x)
                       (bbox2roi self proposals))))]).
Proof.
  unfold refine_test_bboxes.
  repeat run_step.
  all: try (left; split; reflexivity).
  all: repeat match goal with
       | H : as_scalar _ = inr _ |- _ =>
           apply as_scalar_inr in H; destruct H as (? & -> & ->)
       end.
  all: right; eexists; split;
    [ unfold threshold_of;
      repeat match goal with
      | H : getattr _ _ = inr _ |- _ => rewrite H
      end; reflexivity
    | reflexivity ].
Qed.

(* ===================================================================== *)
(** ** Row selection by an indicator *)
(* ===================================================================== *)

Lemma select_rows_map {A B} (g : A -> B) inds (t : list A) :
  select_rows inds (map g t) = map g (select_rows inds t).
Proof.
  unfold select_rows. revert t.
  induction inds as [|b inds IH]; intros [|a t]; simpl; try reflexivity.
  specialize (IH t). destruct b; simpl; [f_equal|]; exact IH.
Qed.

Lemma select_rows_app {A} i1 i2 (t1 t2 : list A) :
  length i1 = length t1 ->
  select_rows (i1 ++ i2) (t1 ++ t2) = select_rows i1 t1 ++ select_rows i2 t2.
Proof.
  unfold select_rows. revert t1.
  induction i1 as [|b i1 IH]; intros [|a t1] Hlen; simpl in *;
    try discriminate; [reflexivity|].
  injection Hlen as Hlen. specialize (IH _ Hlen).
  destruct b; simpl; [f_equal|]; exact IH.
Qed.

Lemma select_rows_ones {A} (t : list A) :
  select_rows (replicate (length t) true) t = t.
Proof.
  unfold select_rows. induction t as [|a t IH]; simpl; [reflexivity|].
  f_equal. exact IH.
Qed.

Lemma select_rows_zeros {A} (t : list A) :
  select_rows (replicate (length t) false) t = [].
Proof.
  unfold select_rows. induction t as [|a t IH]; simpl; [reflexivity|].
  exact IH.
Qed.

(** Selecting the positive rows of the RoIs of all the sampled boxes gives
    the RoIs of the positive boxes, image by image. *)
Lemma select_positive_rois {R} (tag : nat -> list f32 -> R) srs :
  Forall partitioned srs ->
  length (pos_indicator srs)
  = length (concat (imap (fun i bs => map (tag i) bs) (map bboxes srs))) /\
  select_rows (pos_indicator srs)
              (concat (imap (fun i bs => map (tag i) bs) (map bboxes srs)))
  = concat (imap (fun i bs => map (tag i) bs) (map pos_bboxes srs)).
Proof.
  unfold pos_indicator. intros Hp. revert tag.
  induction Hp as [|res srs Hres _ IH]; intros tag; [split; reflexivity|].
  specialize (IH (fun i => tag (S i))). destruct IH as [IHl IHs].
  cbn [map flat_map imap concat app]. unfold compose.
  rewrite Hres, map_app.
  assert (Hl1 : length (replicate (length (pos_bboxes res)) true
                        ++ replicate (length (neg_bboxes res)) false)
                = length (map (tag 0%nat) (pos_bboxes res)
                          ++ map (tag 0%nat) (neg_bboxes res))).
  { rewrite !length_app, !length_replicate, !length_map. reflexivity. }
  rewrite (app_assoc (replicate _ true)).
  split.
  - rewrite !(length_app (_ ++ _)), Hl1, IHl. reflexivity.
  - rewrite select_rows_app by exact Hl1.
    rewrite IHs.
    rewrite select_rows_app by (rewrite length_replicate, length_map; reflexivity).
    rewrite <- (length_map (tag 0%nat) (pos_bboxes res)) at 1.
    rewrite select_rows_ones.
    rewrite <- (length_map (tag 0%nat) (neg_bboxes res)).
    rewrite select_rows_zeros, app_nil_r. reflexivity.
Qed.

Lemma torch_cat_inr {A} (ts : list (list A)) l :
  torch_cat ts = inr l -> l = concat ts.
Proof. destruct ts; simpl; congruence. Qed.

Lemma mask_select_inr {A} (t : list A) inds r :
  mask_select t inds = inr r -> r = select_rows inds t.
Proof. unfold mask_select. destruct (Nat.eqb _ _); congruence. Qed.

(* ===================================================================== *)
(** ** Alignment of the refinement inputs *)
(* ===================================================================== *)

Lemma refinement_calls_app tr1 tr2 :
  refinement_calls (tr1 ++ tr2) = refinement_calls tr1 ++ refinement_calls tr2.
Proof. apply omap_app. Qed.

Lemma refinement_calls_sampling tr :
  Forall sampling_event tr -> refinement_calls tr = [].
Proof.
  induction 1 as [|ev tr Hev _ IH]; [reflexivity|].
  destruct ev; try contradiction; exact IH.
Qed.

Lemma refinement_target_inputs_app tr1 tr2 :
  refinement_target_inputs (tr1 ++ tr2)
  = refinement_target_inputs tr1 ++ refinement_target_inputs tr2.
Proof. apply omap_app. Qed.

Lemma refinement_target_inputs_sampling tr :
  Forall sampling_event tr -> refinement_target_inputs tr = [].
Proof.
  induction 1 as [|ev tr Hev _ IH]; [reflexivity|].
  destruct ev; try contradiction; exact IH.
Qed.

Lemma refinement_calls_In tr feats mask :
  In (EvMaskIoUHead feats mask) tr <-> In (feats, mask) (refinement_calls tr).
Proof.
  unfold refinement_calls. rewrite <- !list_elem_of_In, list_elem_of_omap. split.
  - intros H. exists (EvMaskIoUHead feats mask). split; [exact H | reflexivity].
  - intros (ev & Hev & Heq). destruct ev; try discriminate.
    injection Heq as -> ->. exact Hev.
Qed.

Lemma refinement_target_inputs_In tr srs :
  In (EvGetTarget StRefine srs) tr <-> In srs (refinement_target_inputs tr).
Proof.
  unfold refinement_target_inputs.
  rewrite <- !list_elem_of_In, list_elem_of_omap. split.
  - intros H. exists (EvGetTarget StRefine srs). split; [exact H | reflexivity].
  - intros (ev & Hev & Heq). destruct ev as [| | | | | | | | | | | |s ?| | | | |];
      try discriminate.
    destruct s; try discriminate. injection Heq as ->. exact Hev.
Qed.

Lemma binarize_regionwise (cmp : f32 -> f32 -> bool) thr
    (g : list f32 -> Tensor3) (rois : Rois) :
  tmap4 (fun v => of_bool (cmp v thr)) (drop_background (map g rois))
  = map (fun r => map (map (map (fun v => of_bool (cmp v thr)))) (drop 1 (g r)))
        rois.
Proof. unfold tmap4, drop_background. rewrite !map_map. reflexivity. Qed.

Section Alignment.

Variable self : Detector.
Variables bbox_pool mask_pool : Pyramid -> list f32 -> Tensor3.
Variables shared_region mask_region : Tensor3 -> Tensor3.
Variable interp_region : nat * nat -> Tensor3 -> Tensor3.
Variable roi_tag : nat -> list f32 -> list f32.

Hypothesis bbox_roi_regionwise : forall x rois,
  roi_forward (bbox_roi_extractor self) x rois = map (bbox_pool x) rois.
Hypothesis mask_roi_regionwise : forall x rois,
  roi_forward (mask_roi_extractor self) x rois = map (mask_pool x) rois.
Hypothesis shared_head_regionwise : forall t,
  shared_head self t = map shared_region t.
Hypothesis mask_head_regionwise : forall t,
  mask_head self t = map mask_region t.
Hypothesis interpolate_regionwise : forall t size,
  F_interpolate self t size = map (interp_region size) t.
Hypothesis bbox2roi_per_image : forall l,
  bbox2roi self (BoxList l)
  = concat (imap (fun i bs => map (roi_tag i) bs) l).
Hypothesis sampler_partitions : forall cfg a p g l feats,
  partitioned (sampler_sample self cfg a p g l feats).

Lemma assign_and_sample_partitioned ac sc x pl gb gi gl i :
  outcome (assign_and_sample self ac sc x pl gb gi gl i)
          (fun r tr => Forall sampling_event tr /\
                       forall res, r = inr res -> partitioned res).
Proof.
  split; [apply assign_and_sample_trace; exact I|].
  unfold assign_and_sample, mbind, M_bind, bind, lift, call. simpl.
  destruct (py_index_opt pl i); simpl; [discriminate|].
  destruct (py_index gb i); simpl; [discriminate|].
  destruct (py_index gi i); simpl; [discriminate|].
  destruct (py_index gl i); simpl; [discriminate|].
  destruct (level_feats x i); simpl; [discriminate|].
  intros res [= <-]. apply sampler_partitions.
Qed.

Lemma for_each_partitioned ac sc x pl gb gi gl items :
  outcome (for_each (assign_and_sample self ac sc x pl gb gi gl) items)
          (fun r tr => Forall sampling_event tr /\
                       forall srs, r = inr srs -> Forall partitioned srs).
Proof.
  split; [apply for_each_sampling|].
  induction items as [|i rest IH]; simpl; [intros ? [= <-]; constructor|].
  pose proof (assign_and_sample_partitioned ac sc x pl gb gi gl i) as [_ Hb].
  unfold mbind, M_bind, bind.
  destruct (assign_and_sample self ac sc x pl gb gi gl i) as [[e|r] tr];
    simpl in *; [discriminate|].
  destruct (for_each _ rest) as [[e|rs] tr']; simpl in *; [discriminate|].
  intros srs [= <-]. constructor; [apply Hb | apply IH]; reflexivity.
Qed.

Lemma forward_train_aligned img img_meta gt_bboxes gt_labels
    gt_bboxes_ignore gt_masks proposals :
  outcome (forward_train self img img_meta gt_bboxes gt_labels
                         gt_bboxes_ignore gt_masks proposals)
          (fun _ tr =>
             train_aligned self bbox_pool mask_pool shared_region mask_region
                           interp_region img tr).
Proof.
  unfold forward_train.
  destruct (with_rpn self) eqn:Hrpn, (with_bbox self) eqn:Hbbox,
           (with_mask self) eqn:Hmask; simpl orb.
  all: repeat first
    [ eapply outcome_weaken;
      [apply for_each_partitioned | intros ? ? [? ?]; cbv beta]
    | run_step ].
  all: unfold train_aligned; cbv zeta.
  all: repeat match goal with
       | H : Forall sampling_event _ |- _ =>
           rewrite ?refinement_calls_app, ?refinement_target_inputs_app,
             ?(refinement_calls_sampling _ H),
             ?(refinement_target_inputs_sampling _ H);
           clear H
       end.
  all: rewrite ?refinement_calls_app, ?refinement_target_inputs_app; simpl.
  all: try apply Forall_nil_2.
  all: apply Forall_cons_2; [|apply Forall_nil_2].
  all: eexists; split; [left; reflexivity|].
  all: repeat match goal with
       | H : inr _ = inr _ |- _ => injection H as <-
       | H : as_scalar _ = inr _ |- _ =>
           apply as_scalar_inr in H; destruct H as (? & -> & ->)
       | H : mask_select _ _ = inr _ |- _ => apply mask_select_inr in H; subst
       | H : torch_cat (flat_map _ _) = inr _ |- _ =>
           apply torch_cat_inr in H; subst
       | H : F_max_pool2d _ _ None = inr _ |- _ => discriminate H
       | H : forall srs, inr _ = inr srs -> _ |- _ =>
           specialize (H _ eq_refl)
       | H : negb (share_roi_extractor self) = _ |- _ =>
           destruct (share_roi_extractor self) eqn:?; simpl in H;
           try discriminate H; clear H
       end.
  all: unfold aligned, policy_feats, hint, train_mask_feats, threshold_value,
         policy_of, threshold_of, shared_or_id, binarize_ge; cbn [fst snd].
  all: repeat match goal with
       | H : getattr _ _ = inr _ |- _ => rewrite H
       | H : cfg_eq_str _ _ = _ |- _ => rewrite H
       | H : with_shared_head self = _ |- _ => rewrite H
       | H : share_roi_extractor self = _ |- _ => rewrite H
       end.
  all: rewrite ?bbox_roi_regionwise, ?mask_roi_regionwise,
         ?shared_head_regionwise, ?mask_head_regionwise,
         ?interpolate_regionwise, ?bbox2roi_per_image.
  all: rewrite ?map_map, ?select_rows_map.
  all: try match goal with
       | H : Forall partitioned ?l |- context [select_rows] =>
           let Hsel := fresh in
           pose proof (select_positive_rois roi_tag l H) as [_ Hsel];
           unfold pos_indicator in Hsel; rewrite Hsel; clear Hsel
       end.
  all: rewrite ?map_map, binarize_regionwise.
  all: repeat split; try reflexivity; rewrite ?length_map; reflexivity.
Qed.

Lemma refine_test_bboxes_aligned x img_meta proposals cfg rescale :
  outcome (refine_test_bboxes self x img_meta proposals cfg rescale)
          (fun _ tr =>
             test_aligned self bbox_pool mask_pool shared_region mask_region
                          interp_region x cfg proposals tr).
Proof.
  unfold refine_test_bboxes.
  repeat run_step.
  all: unfold test_aligned; cbv zeta; simpl.
  all: try apply Forall_nil_2.
  all: apply Forall_cons_2; [|apply Forall_nil_2].
  all: repeat match goal with
       | H : inr _ = inr _ |- _ => injection H as <-
       | H : as_scalar _ = inr _ |- _ =>
           apply as_scalar_inr in H; destruct H as (? & -> & ->)
       | H : F_max_pool2d _ _ None = inr _ |- _ => discriminate H
       end.
  all: unfold aligned, policy_feats, hint, test_mask_feats, threshold_value,
         policy_of, threshold_of, shared_or_id, binarize_gt; cbn [fst snd].
  all: repeat match goal with
       | H : getattr _ _ = inr _ |- _ => rewrite H
       | H : cfg_eq_str _ _ = _ |- _ => rewrite H
       | H : with_shared_head self = _ |- _ => rewrite H
       end.
  all: rewrite ?bbox_roi_regionwise, ?mask_roi_regionwise,
         ?shared_head_regionwise, ?mask_head_regionwise,
         ?interpolate_regionwise.
  all: rewrite ?map_map, binarize_regionwise.
  all: repeat split; try reflexivity; rewrite ?length_map; reflexivity.
Qed.

(** C5.  Under the contracts of the collaborators (the RoI extractors,
    the shared head, the mask head and the resize work region by region,
    [bbox2roi] lists the boxes image by image, the sampler lists positive
    boxes before negative ones): whenever the refinement head is called,
    its features and its mask have the same number of regions, and row
    [i] of each is computed from RoI [i] of the positive boxes of the
    sampling results the refinement targets are built from (training), or
    of the candidate boxes (inference). *)
Theorem refinement_inputs_are_aligned : refinement_aligned self.
Proof.
  unfold refinement_aligned. split.
  - intros img. eexists _, _.
    intros img_meta gt_bboxes gt_labels gt_bboxes_ignore gt_masks proposals
           feats mask Hin.
    pose proof (forward_train_aligned img img_meta gt_bboxes gt_labels
                  gt_bboxes_ignore gt_masks proposals) as H.
    unfold outcome, train_aligned in H. cbv zeta in H.
    rewrite Forall_forall in H.
    apply refinement_calls_In in Hin. rewrite <- list_elem_of_In in Hin.
    destruct (H _ Hin) as (srs & Hsrs & Hal).
    exists srs. split; [apply refinement_target_inputs_In; exact Hsrs|].
    exact Hal.
  - intros x cfg. eexists _, _.
    intros img_meta proposals rescale feats mask Hin.
    pose proof (refine_test_bboxes_aligned x img_meta proposals cfg rescale)
      as H.
    unfold outcome, test_aligned in H. cbv zeta in H.
    rewrite Forall_forall in H.
    apply refinement_calls_In in Hin. rewrite <- list_elem_of_In in Hin.
    exact (H _ Hin).
Qed.

End Alignment.


Lemma refinement_inputs_are_aligned_witness :
  refinement_aligned (Demo.standard (Some (CfgStr "interpolate")) Demo.one_det).
Proof.
  apply (refinement_inputs_are_aligned
           (Demo.standard (Some (CfgStr "interpolate")) Demo.one_det)
           (fun _ => Demo.bbox_pool) (fun _ => Demo.mask_pool)
           (fun region => region) (fun region => region)
           (fun _ region => region)
           (fun i b => Demo.index_f32 i :: take 4 b));
    intros; reflexivity.
Defined.

(* ===================================================================== *)
(** ** The assignment loop, image by image *)
(* ===================================================================== *)

Lemma py_index_inr {A} (l : list A) i a :
  py_index l i = inr a -> (i < length l)%nat.
Proof.
  unfold py_index. destruct (l !! i) eqn:H; [|discriminate].
  intros _. eapply lookup_lt_Some. exact H.
Qed.

Lemma py_index_opt_inr {A} (l : option (list A)) i a :
  py_index_opt l i = inr a -> exists p, l = Some p /\ (i < length p)%nat.
Proof.
  destruct l as [p|]; simpl; [|discriminate].
  intros H. exists p. split; [reflexivity|]. eapply py_index_inr. exact H.
Qed.

Lemma level_feats_inr x i fs :
  level_feats x i = inr fs ->
  Forall (fun lvl : Tensor4 => (i < length lvl)%nat) x.
Proof.
  revert fs. induction x as [|lvl rest IH]; simpl; intros fs; [constructor|].
  destruct (py_index lvl i) as [e|f] eqn:Hi; [discriminate|].
  destruct (level_feats rest i) as [e|fs']; [discriminate|].
  intros _. constructor; [eapply py_index_inr; exact Hi|].
  eapply IH. reflexivity.
Qed.

Lemma assign_and_sample_inr self ac sc x pl gb gi gl i res tr :
  assign_and_sample self ac sc x pl gb gi gl i = (inr res, tr) ->
  tr = [EvAssign i; EvSample i] /\ image_covered pl gb gi gl x i.
Proof.
  unfold assign_and_sample, mbind, M_bind, bind, lift, call. simpl.
  destruct (py_index_opt pl i) eqn:H1; simpl; [discriminate|].
  destruct (py_index gb i) eqn:H2; simpl; [discriminate|].
  destruct (py_index gi i) eqn:H3; simpl; [discriminate|].
  destruct (py_index gl i) eqn:H4; simpl; [discriminate|].
  destruct (level_feats x i) eqn:H5; simpl; [discriminate|].
  intros [= _ <-]. split; [reflexivity|].
  repeat split.
  - eapply py_index_opt_inr; exact H1.
  - eapply py_index_inr; exact H2.
  - eapply py_index_inr; exact H3.
  - eapply py_index_inr; exact H4.
  - eapply level_feats_inr; exact H5.
Qed.

Lemma for_each_inr self ac sc x pl gb gi gl items srs tr :
  for_each (assign_and_sample self ac sc x pl gb gi gl) items = (inr srs, tr) ->
  tr = flat_map (fun i => [EvAssign i; EvSample i]) items /\
  length srs = length items /\
  Forall (image_covered pl gb gi gl x) items.
Proof.
  revert srs tr. induction items as [|i rest IH]; simpl; intros srs tr.
  - intros [= <- <-]. repeat split. constructor.
  - unfold mbind, M_bind, bind.
    destruct (assign_and_sample self ac sc x pl gb gi gl i) as [[e|r] tr1]
      eqn:Hb; [discriminate|].
    apply assign_and_sample_inr in Hb as [-> Hcov].
    destruct (for_each _ rest) as [[e|rs] tr2] eqn:Hr; [discriminate|].
    destruct (IH _ _ eq_refl) as (-> & Hlen & Hall).
    simpl. intros [= <- <-]. simpl. repeat split.
    + rewrite app_nil_r. reflexivity.
    + rewrite Hlen. reflexivity.
    + constructor; assumption.
Qed.

Lemma seq_bound (P : nat -> Prop) (m n : nat) :
  (forall i, P i -> (i < m)%nat) -> Forall P (seq 0 n) -> (n <= m)%nat.
Proof.
  intros HP Hall. destruct n as [|n]; [lia|].
  rewrite Forall_forall in Hall.
  assert (Hin : n ∈ seq 0 (S n)) by (apply elem_of_seq; lia).
  specialize (HP _ (Hall _ Hin)). lia.
Qed.

(** The loop over a batch of [n] images: its calls are the assignment and
    the sampling of every image in turn, and when it completes there is
    one sampling result per image and every per-image input has an entry
    for every image. *)
Lemma sampling_loop self ac sc x pl gb gi gl n :
  outcome (for_each (assign_and_sample self ac sc x pl gb gi gl) (seq 0 n))
    (fun r tr =>
       Forall sampling_event tr /\
       forall srs, r = inr srs ->
         tr = per_image_sampling n /\ length srs = n /\
         (n <= length gb)%nat /\ (n <= length gi)%nat /\
         (n <= length gl)%nat /\
         ((0 < n)%nat -> exists p, pl = Some p /\ (n <= length p)%nat) /\
         Forall (fun lvl : Tensor4 => (n <= length lvl)%nat) x).
Proof.
  split; [apply for_each_sampling|].
  intros srs Hr.
  destruct (for_each _ (seq 0 n)) as [r tr] eqn:Hrun. simpl in Hr. subst r.
  apply for_each_inr in Hrun as (Htr & Hlen & Hall). simpl.
  split; [exact Htr|]. split; [rewrite Hlen; apply length_seq|].
  repeat split.
  - eapply seq_bound; [|exact Hall]. intros i H. apply H.
  - eapply seq_bound; [|exact Hall]. intros i H. apply H.
  - eapply seq_bound; [|exact Hall]. intros i H. apply H.
  - intros Hn. destruct n as [|n]; [lia|].
    rewrite Forall_forall in Hall.
    assert (Hin : n ∈ seq 0 (S n)) by (apply elem_of_seq; lia).
    destruct (Hall _ Hin) as [(p & Hp & Hlt) _].
    exists p. split; [exact Hp | lia].
  - apply Forall_forall. intros lvl Hlvl.
    eapply seq_bound; [|exact Hall].
    intros i (_ & _ & _ & _ & Hx). rewrite Forall_forall in Hx.
    exact (Hx _ Hlvl).
Qed.

(* ===================================================================== *)
(** ** Summaries of a walk *)
(* ===================================================================== *)

Lemma omap_sampling {B} (f : Event -> option B) tr :
  (forall ev, sampling_event ev -> f ev = None) ->
  Forall sampling_event tr -> omap f tr = [].
Proof.
  intros Hf. induction 1 as [|ev tr Hev _ IH]; [reflexivity|].
  simpl. rewrite (Hf _ Hev). exact IH.
Qed.

Lemma head_stages_app tr1 tr2 :
  head_stages (tr1 ++ tr2) = head_stages tr1 ++ head_stages tr2.
Proof. apply omap_app. Qed.

Lemma head_stages_sampling tr : Forall sampling_event tr -> head_stages tr = [].
Proof. apply omap_sampling. intros []; simpl; tauto. Qed.

Lemma sampling_calls_app tr1 tr2 :
  sampling_calls (tr1 ++ tr2) = sampling_calls tr1 ++ sampling_calls tr2.
Proof. apply omap_app. Qed.

Lemma sampling_calls_sampling tr :
  Forall sampling_event tr -> sampling_calls tr = tr.
Proof.
  induction 1 as [|ev tr Hev _ IH]; [reflexivity|].
  destruct ev; try contradiction; simpl; f_equal; exact IH.
Qed.

Lemma target_inputs_app tr1 tr2 :
  target_inputs (tr1 ++ tr2) = target_inputs tr1 ++ target_inputs tr2.
Proof. apply omap_app. Qed.

Lemma target_inputs_sampling tr :
  Forall sampling_event tr -> target_inputs tr = [].
Proof. apply omap_sampling. intros []; simpl; tauto. Qed.

Lemma rpn_decode_cfgs_app tr1 tr2 :
  rpn_decode_cfgs (tr1 ++ tr2) = rpn_decode_cfgs tr1 ++ rpn_decode_cfgs tr2.
Proof. apply omap_app. Qed.

Lemma rpn_decode_cfgs_sampling tr :
  Forall sampling_event tr -> rpn_decode_cfgs tr = [].
Proof. apply omap_sampling. intros []; simpl; tauto. Qed.

Lemma mask_roi_calls_app tr1 tr2 :
  mask_roi_calls (tr1 ++ tr2) = mask_roi_calls tr1 ++ mask_roi_calls tr2.
Proof. apply omap_app. Qed.

Lemma mask_roi_calls_sampling tr :
  Forall sampling_event tr -> mask_roi_calls tr = [].
Proof. apply omap_sampling. intros []; simpl; tauto. Qed.

Lemma interpolate_calls_app tr1 tr2 :
  interpolate_calls (tr1 ++ tr2)
  = interpolate_calls tr1 ++ interpolate_calls tr2.
Proof. apply omap_app. Qed.

Lemma interpolate_calls_sampling tr :
  Forall sampling_event tr -> interpolate_calls tr = [].
Proof. apply omap_sampling. intros []; simpl; tauto. Qed.

Lemma refinement_feats_app tr1 tr2 :
  refinement_feats (tr1 ++ tr2) = refinement_feats tr1 ++ refinement_feats tr2.
Proof. apply omap_app. Qed.

Lemma refinement_feats_sampling tr :
  Forall sampling_event tr -> refinement_feats tr = [].
Proof. apply omap_sampling. intros []; simpl; tauto. Qed.

Lemma test_stages_app tr1 tr2 :
  test_stages (tr1 ++ tr2) = test_stages tr1 ++ test_stages tr2.
Proof. apply omap_app. Qed.

(** Project a finished walk onto every summary. *)
Ltac summarize_all :=
  repeat match goal with
  | H : Forall sampling_event _ |- _ =>
      rewrite ?loss_events_app, ?refinement_masks_app, ?mask_head_inputs_app,
        ?bbox_roi_calls_app, ?head_stages_app, ?sampling_calls_app,
        ?target_inputs_app, ?rpn_decode_cfgs_app, ?mask_roi_calls_app,
        ?interpolate_calls_app, ?refinement_feats_app,
        ?(loss_events_sampling _ H), ?(refinement_masks_sampling _ H),
        ?(mask_head_inputs_sampling _ H), ?(bbox_roi_calls_sampling _ H),
        ?(head_stages_sampling _ H), ?(sampling_calls_sampling _ H),
        ?(target_inputs_sampling _ H), ?(rpn_decode_cfgs_sampling _ H),
        ?(mask_roi_calls_sampling _ H), ?(interpolate_calls_sampling _ H),
        ?(refinement_feats_sampling _ H);
      clear H
  end;
  rewrite ?loss_events_app, ?refinement_masks_app, ?mask_head_inputs_app,
    ?bbox_roi_calls_app, ?head_stages_app, ?sampling_calls_app,
    ?target_inputs_app, ?rpn_decode_cfgs_app, ?mask_roi_calls_app,
    ?interpolate_calls_app, ?refinement_feats_app, ?test_stages_app;
  simpl.

(** Walk through [forward_train], with the facts of the loop. *)
Ltac walk_train :=
  repeat first
    [ exact I
    | eapply outcome_weaken;
      [apply sampling_loop | intros ? ? [? ?]; cbv beta]
    | run_step ].

(** Bring the facts of a returning walk into shape. *)
Ltac tidy :=
  repeat match goal with
  | H : inr _ = inr _ |- _ => injection H as <-
  | H : F_max_pool2d _ _ None = inr _ |- _ => discriminate H
  | H : forall srs, inr _ = inr srs -> _ |- _ =>
      specialize (H _ eq_refl);
      destruct H as (? & ? & ? & ? & ? & ? & ?)
  | H : negb (share_roi_extractor _) = _ |- _ =>
      destruct (share_roi_extractor _) eqn:?; simpl in H;
      try discriminate H; clear H
  end.

(* ===================================================================== *)
(** ** What a returned training step has done *)
(* ===================================================================== *)

Lemma forward_train_protocol self img img_meta gt_bboxes gt_labels
    gt_bboxes_ignore gt_masks proposals :
  outcome (forward_train self img img_meta gt_bboxes gt_labels
                         gt_bboxes_ignore gt_masks proposals)
          (train_protocol self img).
Proof.
  unfold forward_train.
  destruct (with_rpn self) eqn:Hrpn, (with_bbox self) eqn:Hbbox,
           (with_mask self) eqn:Hmask; simpl orb.
  all: walk_train.
  all: unfold train_protocol; tidy.
  all: summarize_all; rewrite ?Hrpn, ?Hbbox, ?Hmask; simpl.
  all: repeat split; try reflexivity; try assumption;
       try (repeat constructor; assumption);
       try (rewrite ?app_nil_r; assumption).
Qed.

(* ===================================================================== *)
(** ** What a returned training step needed *)
(* ===================================================================== *)

Lemma forward_train_requirements self img img_meta gt_bboxes gt_labels
    gt_bboxes_ignore gt_masks proposals :
  outcome (forward_train self img img_meta gt_bboxes gt_labels
                         gt_bboxes_ignore gt_masks proposals)
          (train_requirements self img gt_bboxes gt_labels gt_bboxes_ignore
                              proposals).
Proof.
  unfold forward_train.
  destruct (with_rpn self) eqn:Hrpn, (with_bbox self) eqn:Hbbox,
           (with_mask self) eqn:Hmask; simpl orb.
  all: walk_train.
  all: unfold train_requirements; tidy.
  all: summarize_all; rewrite ?Hrpn, ?Hbbox, ?Hmask.
  all: repeat match goal with |- _ /\ _ => split end.
  all: try (intros; discriminate).
  all: try (intros; congruence).
  all: try (intros _; eexists _, _; repeat split; eassumption).
  all: try (intros _ ->; simpl in *;
            match goal with
            | H : length ?l = 0%nat |- _ => destruct l; simpl in *; discriminate
            end).
  all: intros _; repeat split;
       try assumption; try (intros; discriminate); try (intros; auto; fail).
  all: intros ig ->; simpl in *; assumption.
Qed.

(* ===================================================================== *)
(** ** The order of the heads, whatever the outcome *)
(* ===================================================================== *)

Lemma forward_train_head_order self img img_meta gt_bboxes gt_labels
    gt_bboxes_ignore gt_masks proposals :
  outcome (forward_train self img img_meta gt_bboxes gt_labels
                         gt_bboxes_ignore gt_masks proposals)
          (fun _ tr =>
             head_stages tr `prefix_of`
             List.filter (stage_enabled self)
                         [StRpn; StBbox; StMask; StRefine]).
Proof.
  unfold forward_train.
  destruct (with_rpn self) eqn:Hrpn, (with_bbox self) eqn:Hbbox,
           (with_mask self) eqn:Hmask; simpl orb.
  all: repeat first
    [ eapply outcome_weaken;
      [apply sampling_loop | intros ? ? [? _]; cbv beta]
    | run_step ].
  all: summarize_all; rewrite ?Hrpn, ?Hbbox, ?Hmask; simpl.
  all: eexists; simpl; reflexivity.
Qed.

(* ===================================================================== *)
(** ** The refinement features of a returned training step *)
(* ===================================================================== *)

Lemma forward_train_policy self img img_meta gt_bboxes gt_labels
    gt_bboxes_ignore gt_masks proposals :
  outcome (forward_train self img img_meta gt_bboxes gt_labels
                         gt_bboxes_ignore gt_masks proposals)
          (train_policy self img).
Proof.
  unfold forward_train.
  destruct (with_rpn self) eqn:Hrpn, (with_bbox self) eqn:Hbbox,
           (with_mask self) eqn:Hmask; simpl orb.
  all: walk_train.
  all: unfold train_policy; try (intros; congruence).
  all: tidy; intros _ policy; unfold policy_of;
       repeat match goal with
       | H : getattr _ _ = inr _ |- _ => rewrite H; cbv iota beta
       end;
       intros [= <-].
  all: summarize_all; rewrite ?Hrpn, ?Hbbox, ?Hmask.
  all: split; intros Hres; try congruence.
  all: repeat match goal with
       | |- _ /\ _ => split
       | |- exists _, _ => eexists
       end; try reflexivity; try assumption.
Qed.

(* ===================================================================== *)
(** ** When the refinement pass returns *)
(* ===================================================================== *)

Lemma py_index_head_inl {A} (l : list A) e : py_index l 0 = inl e -> l = [].
Proof. destruct l; [reflexivity | discriminate]. Qed.

Lemma py_index_head_inr {A} (l : list A) a : py_index l 0 = inr a -> l <> [].
Proof. destruct l; [discriminate | intros _; discriminate]. Qed.

Lemma refine_test_bboxes_ready self x img_meta proposals cfg rescale :
  outcome (refine_test_bboxes self x img_meta proposals cfg rescale)
          (fun r tr => returned (r, tr) = true <-> refine_ready self cfg img_meta).
Proof.
  unfold refine_test_bboxes.
  repeat run_step.
  all: unfold returned, refine_ready, policy_of, threshold_of; cbn [fst snd].
  all: repeat match goal with
       | H : inr _ = inr _ |- _ => injection H as <-
       | H : F_max_pool2d _ _ None = inr _ |- _ => discriminate H
       | H : getattr _ _ = _ |- _ => rewrite H
       | H : as_scalar _ = inr _ |- _ =>
           apply as_scalar_inr in H; destruct H as (? & -> & ->)
       | H : py_index _ 0 = inl _ |- _ => apply py_index_head_inl in H; subst
       | H : py_index _ 0 = inr _ |- _ => apply py_index_head_inr in H
       end.
  all: split.
  all: try discriminate.
  all: try (intros _; reflexivity).
  all: try (intros _; split;
            [ eexists; split; [reflexivity|];
              repeat match goal with
                     | H : cfg_eq_str _ _ = _ |- _ => rewrite H
                     end; reflexivity
            | split; [eexists; reflexivity | assumption] ]).
  all: intros ((policy & Hp & Ho) & (thr & Ht) & Hm).
  all: try discriminate Hp; try discriminate Ht.
  all: try (exfalso; apply Hm; reflexivity).
  all: try (injection Ht as ->; simpl in *; discriminate).
  all: injection Hp as <-;
       repeat match goal with
              | H : cfg_eq_str _ _ = _ |- _ => rewrite H in Ho
              end; discriminate Ho.
Qed.

(* ===================================================================== *)
(** ** The pooling calls of the refinement pass *)
(* ===================================================================== *)

Lemma refine_test_bboxes_policy self x img_meta proposals cfg rescale :
  outcome (refine_test_bboxes self x img_meta proposals cfg rescale)
          (fun _ tr => test_policy self x proposals tr).
Proof.
  unfold refine_test_bboxes.
  repeat run_step.
  all: unfold test_policy, policy_of; cbv zeta.
  all: summarize_all.
  all: repeat match goal with
       | H : inr _ = inr _ |- _ => injection H as <-
       | H : getattr _ _ = _ |- _ => rewrite H
       end.
  all: split; [reflexivity|]; split; [reflexivity|].
  all: intros policy Hp; try discriminate Hp; injection Hp as <-.
  all: split; intros Hres; try congruence.
  all: repeat split; try reflexivity; intros; congruence.
Qed.

(* ===================================================================== *)
(** ** The segmentation stage *)
(* ===================================================================== *)

Lemma simple_test_mask_cases self x img_meta det_bboxes det_labels rescale :
  let m := simple_test_mask self x img_meta det_bboxes det_labels rescale in
  (img_meta = [] -> exists e, m = (inl e, []) /\ lookup_error e) /\
  (forall meta metas, img_meta = meta :: metas ->
     (det_bboxes = [] ->
        m = (inr (replicate (Z.to_nat (mask_head_num_classes self - 1)) []),
             [])) /\
     (det_bboxes <> [] ->
        let boxes := seg_boxes (scale_factor meta) rescale det_bboxes in
        mask_roi_calls m.2 = [bbox2roi self (BoxList [boxes])] /\
        length (mask_head_inputs m.2) = 1%nat /\
        (returned m = true ->
           exists mask_pred,
             last m.2 = Some (EvGetSegMasks mask_pred boxes)))).
Proof.
  intros m. split.
  - intros ->. eexists. split; [reflexivity | exact I].
  - intros meta metas ->. split.
    + intros ->. reflexivity.
    + intros Hne. destruct det_bboxes as [|b bs]; [congruence|].
      subst m. unfold simple_test_mask, seg_boxes, through_shared_head.
      cbn [py_index lookup list_lookup lift mbind M_bind bind length Nat.eqb].
      destruct (with_shared_head self), (getattr (test_cfg self) "rcnn");
        simpl; repeat split; try reflexivity; try discriminate;
        intros _; eexists; reflexivity.
Qed.

(* ===================================================================== *)
(** ** What a run of [simple_test] does *)
(* ===================================================================== *)

Lemma simple_test_protocol self img img_meta proposals rescale :
  outcome (simple_test self img img_meta proposals rescale)
          (test_protocol self img proposals).
Proof.
  unfold simple_test.
  destruct (with_bbox self) eqn:Hbbox, (with_mask self) eqn:Hmask; simpl negb;
    cbv iota; unfold refine_test_bboxes, simple_test_mask.
  all: repeat run_step.
  all: unfold test_protocol, test_stage_order; summarize_all;
       rewrite ?Hbbox, ?Hmask.
  all: name_errors.
  all: repeat match goal with
       | H : F_max_pool2d _ _ None = inl _ |- _ => injection H as <-
       | H : F_max_pool2d _ _ None = inr _ |- _ => discriminate H
       | H : py_index _ _ = inl _ |- _ => apply py_index_inl in H
       end.
  all: split; [eexists; simpl; reflexivity|].
  all: repeat match goal with |- _ /\ _ => split | |- _ <-> _ => split end.
  all: try (intros [msg Hmsg]; try discriminate Hmsg;
            injection Hmsg as ->;
            match goal with H : lookup_error _ |- _ => destruct H end).
  all: try (intros Hf; try discriminate Hf; try reflexivity;
            eexists; reflexivity).
  all: try (intros res Hres; try discriminate Hres; injection Hres as <-;
            simpl; repeat split; intros; try tauto; try discriminate;
            try (eexists; reflexivity);
            match goal with H : is_Some None |- _ => destruct H; discriminate
            end).
Qed.

(* ===================================================================== *)
(** ** Properties of the training step *)
(* ===================================================================== *)

Lemma updates_snoc ds (sd : Stage * LossDict) :
  updates (ds ++ [sd]) = sd.2 ∪ updates ds.
Proof. unfold updates. rewrite foldl_app. reflexivity. Qed.

Lemma updates_lookup ds1 (s : Stage) (d : LossDict) ds2 k v :
  d !! k = Some v ->
  Forall (fun sd : Stage * LossDict => sd.2 !! k = None) ds2 ->
  updates (ds1 ++ (s, d) :: ds2) !! k = Some v.
Proof.
  intros Hd. induction ds2 as [|sd ds2 IH] using rev_ind; intros Hnone.
  - rewrite updates_snoc. simpl. apply lookup_union_Some_l. exact Hd.
  - apply Forall_app in Hnone as [Hnone Hsd].
    apply Forall_inv in Hsd.
    change (ds1 ++ (s, d) :: ds2 ++ [sd])
      with (ds1 ++ ((s, d) :: ds2) ++ [sd]).
    rewrite app_assoc, updates_snoc.
    rewrite lookup_union_r by exact Hsd. apply IH. exact Hnone.
Qed.

Lemma train_outcome {Q : Exc LossDict -> list Event -> Prop}
    (m : M LossDict) losses tr :
  outcome m Q -> m = (inr losses, tr) -> Q (inr losses) tr.
Proof. unfold outcome. intros H ->. exact H. Qed.

(** X1.  The loss mapping returned by [forward_train] is the result of
    [losses.update] applied to the mappings of the loss computations in
    the order they ran: a loss name returned by a stage keeps that stage's
    value unless a later stage returns the same name. *)
Theorem forward_train_losses_are_the_updates_in_order
    (self : Detector) img img_meta gt_bboxes gt_labels gt_bboxes_ignore
    gt_masks proposals (losses : LossDict) (tr : list Event) :
  forward_train self img img_meta gt_bboxes gt_labels gt_bboxes_ignore
                gt_masks proposals = (inr losses, tr) ->
  losses = updates (loss_events tr) /\
  forall before s (d : LossDict) after k v,
    loss_events tr = before ++ (s, d) :: after ->
    d !! k = Some v ->
    Forall (fun sd : Stage * LossDict => sd.2 !! k = None) after ->
    losses !! k = Some v.
Proof.
  intros Hrun.
  destruct (train_outcome _ _ _ (forward_train_protocol self img img_meta
              gt_bboxes gt_labels gt_bboxes_ignore gt_masks proposals) Hrun)
    as (Hl & _).
  split; [exact Hl|].
  intros before s d after k v Hev Hd Hafter.
  rewrite Hl, Hev. apply updates_lookup; assumption.
Qed.

Lemma demo_train_returned :
  returned (Demo.train (Demo.standard (Some (CfgStr "interpolate"))
                                      Demo.one_det)) = true.
Proof. vm_compute. reflexivity. Qed.

Lemma forward_train_losses_are_the_updates_in_order_witness :
  exists losses tr,
    Demo.train (Demo.standard (Some (CfgStr "interpolate")) Demo.one_det)
    = (inr losses, tr) /\
    losses = updates (loss_events tr).
Proof.
  destruct (returned_inv _ demo_train_returned) as (losses & tr & Hrun).
  exists losses, tr. split; [exact Hrun|].
  exact (proj1 (forward_train_losses_are_the_updates_in_order
                  (Demo.standard (Some (CfgStr "interpolate")) Demo.one_det)
                  Demo.img [Demo.meta] [[Demo.box_a]] [[1%Z]] None
                  (Some [[[[one]]]]) None losses tr Hrun)).
Defined.

(** X2.  In every run of [forward_train], whatever its outcome, the
    forward passes of the heads that [forward_train] calls itself come in
    the order RPN head, box head, mask head, refinement head, each enabled
    head at most once and no disabled head at all; when the step returns,
    every enabled head has run. *)
Theorem forward_train_runs_the_enabled_heads_in_order
    (self : Detector) img img_meta gt_bboxes gt_labels gt_bboxes_ignore
    gt_masks proposals :
  let m := forward_train self img img_meta gt_bboxes gt_labels
                         gt_bboxes_ignore gt_masks proposals in
  let enabled :=
    List.filter (stage_enabled self) [StRpn; StBbox; StMask; StRefine] in
  head_stages m.2 `prefix_of` enabled /\
  (returned m = true -> head_stages m.2 = enabled).
Proof.
  cbv zeta. split.
  - exact (forward_train_head_order self img img_meta gt_bboxes gt_labels
             gt_bboxes_ignore gt_masks proposals).
  - intros Hret. destruct (returned_inv _ Hret) as (losses & tr & Hrun).
    destruct (train_outcome _ _ _ (forward_train_protocol self img img_meta
                gt_bboxes gt_labels gt_bboxes_ignore gt_masks proposals) Hrun)
      as (_ & Hh & _).
    rewrite Hrun. exact Hh.
Qed.

Lemma forward_train_runs_the_enabled_heads_in_order_witness :
  let m := Demo.train (Demo.standard (Some (CfgStr "interpolate"))
                                     Demo.one_det) in
  head_stages m.2 `prefix_of` [StRpn; StBbox; StMask; StRefine] /\
  (returned m = true -> head_stages m.2 = [StRpn; StBbox; StMask; StRefine]).
Proof.
  exact (forward_train_runs_the_enabled_heads_in_order
           (Demo.standard (Some (CfgStr "interpolate")) Demo.one_det)
           Demo.img [Demo.meta] [[Demo.box_a]] [[1%Z]] None
           (Some [[[[one]]]]) None).
Defined.

(** X3.  When [forward_train] returns and a box or mask head is enabled,
    the assigner and the sampler were called once per image, assignment
    before sampling, in image order, and every [get_target] call got one
    sampling result per image; with neither head they were not called. *)
Theorem forward_train_samples_image_by_image
    (self : Detector) img img_meta gt_bboxes gt_labels gt_bboxes_ignore
    gt_masks proposals (losses : LossDict) (tr : list Event) :
  forward_train self img img_meta gt_bboxes gt_labels gt_bboxes_ignore
                gt_masks proposals = (inr losses, tr) ->
  sampling_calls tr
  = (if with_bbox self || with_mask self
     then per_image_sampling (length img) else []) /\
  Forall (fun srs : list SamplingResult => length srs = length img)
         (target_inputs tr).
Proof.
  intros Hrun.
  destruct (train_outcome _ _ _ (forward_train_protocol self img img_meta
              gt_bboxes gt_labels gt_bboxes_ignore gt_masks proposals) Hrun)
    as (_ & _ & Hs & Ht).
  split; assumption.
Qed.

Lemma forward_train_samples_image_by_image_witness :
  exists losses tr,
    Demo.train (Demo.standard (Some (CfgStr "interpolate")) Demo.one_det)
    = (inr losses, tr) /\
    sampling_calls tr = [EvAssign 0; EvSample 0] /\
    Forall (fun srs : list SamplingResult => length srs = 1%nat)
           (target_inputs tr).
Proof.
  destruct (returned_inv _ demo_train_returned) as (losses & tr & Hrun).
  exists losses, tr. split; [exact Hrun|].
  exact (forward_train_samples_image_by_image
           (Demo.standard (Some (CfgStr "interpolate")) Demo.one_det)
           Demo.img [Demo.meta] [[Demo.box_a]] [[1%Z]] None
           (Some [[[[one]]]]) None losses tr Hrun).
Defined.

(** X4.  [forward_train] with a box or mask head returns only if every
    per-image input has an entry for every image of the batch: the
    ground-truth boxes and labels, the ignore regions when they are given,
    every pyramid level, and, without RPN and with at least one image, the
    proposals, which must then be given. *)
Theorem forward_train_needs_an_entry_per_image
    (self : Detector) img img_meta gt_bboxes gt_labels gt_bboxes_ignore
    gt_masks proposals (losses : LossDict) (tr : list Event) :
  forward_train self img img_meta gt_bboxes gt_labels gt_bboxes_ignore
                gt_masks proposals = (inr losses, tr) ->
  with_bbox self || with_mask self = true ->
  (length img <= length gt_bboxes)%nat /\
  (length img <= length gt_labels)%nat /\
  (forall ig, gt_bboxes_ignore = Some ig -> (length img <= length ig)%nat) /\
  (with_rpn self = false -> (0 < length img)%nat ->
     exists p, proposals = Some p /\ (length img <= length p)%nat) /\
  Forall (fun lvl : Tensor4 => (length img <= length lvl)%nat)
         (extract_feat self img).
Proof.
  intros Hrun.
  exact (proj1 (train_outcome _ _ _ (forward_train_requirements self img
                  img_meta gt_bboxes gt_labels gt_bboxes_ignore gt_masks
                  proposals) Hrun)).
Qed.

Lemma forward_train_needs_an_entry_per_image_witness :
  exists losses tr,
    Demo.train (Demo.standard (Some (CfgStr "interpolate")) Demo.one_det)
    = (inr losses, tr) /\
    (length Demo.img <= length [[Demo.box_a]])%nat /\
    (length Demo.img <= length [[1%Z]])%nat.
Proof.
  destruct (returned_inv _ demo_train_returned) as (losses & tr & Hrun).
  exists losses, tr. split; [exact Hrun|].
  destruct (forward_train_needs_an_entry_per_image
              (Demo.standard (Some (CfgStr "interpolate")) Demo.one_det)
              Demo.img [Demo.meta] [[Demo.box_a]] [[1%Z]] None
              (Some [[[[one]]]]) None losses tr Hrun eq_refl)
    as (Hb & Hl & _).
  split; [exact Hb | exact Hl].
Defined.

(** X5.  When the mask branch reuses the pooled box features
    ([share_roi_extractor]) and the detector has no box head,
    [forward_train] does not return: [bbox_feats] is bound by the box
    stage only. *)
Theorem forward_train_shared_mask_branch_needs_the_box_head
    (self : Detector) img img_meta gt_bboxes gt_labels gt_bboxes_ignore
    gt_masks proposals :
  with_mask self = true -> share_roi_extractor self = true ->
  with_bbox self = false ->
  returned (forward_train self img img_meta gt_bboxes gt_labels
                          gt_bboxes_ignore gt_masks proposals) = false.
Proof.
  intros Hmask Hshare Hbbox.
  destruct (returned _) eqn:Hret; [|reflexivity].
  destruct (returned_inv _ Hret) as (losses & tr & Hrun).
  destruct (train_outcome _ _ _ (forward_train_requirements self img
              img_meta gt_bboxes gt_labels gt_bboxes_ignore gt_masks
              proposals) Hrun) as (_ & Hneed & _).
  specialize (Hneed Hmask Hshare). congruence.
Qed.

Lemma forward_train_shared_mask_branch_needs_the_box_head_witness :
  let d := Demo.detector (Demo.cfg (Some (CfgStr "interpolate")) [])
                         (Demo.cfg (Some (CfgStr "interpolate")) [])
                         true false true false true Demo.one_det in
  returned (Demo.train d) = false.
Proof.
  intros d.
  apply (forward_train_shared_mask_branch_needs_the_box_head d);
    reflexivity.
Defined.

(** X6.  With the mask head enabled, [forward_train] does not return on
    an empty batch: the concatenation of the positive labels (or of the
    positive indicators) of no image raises. *)
Theorem forward_train_with_mask_head_needs_an_image
    (self : Detector) img_meta gt_bboxes gt_labels gt_bboxes_ignore
    gt_masks proposals :
  with_mask self = true ->
  returned (forward_train self [] img_meta gt_bboxes gt_labels
                          gt_bboxes_ignore gt_masks proposals) = false.
Proof.
  intros Hmask.
  destruct (returned _) eqn:Hret; [|reflexivity].
  destruct (returned_inv _ Hret) as (losses & tr & Hrun).
  destruct (train_outcome _ _ _ (forward_train_requirements self []
              img_meta gt_bboxes gt_labels gt_bboxes_ignore gt_masks
              proposals) Hrun) as (_ & _ & Hneed & _).
  exfalso. exact (Hneed Hmask eq_refl).
Qed.

Lemma forward_train_with_mask_head_needs_an_image_witness :
  returned (forward_train
              (Demo.standard (Some (CfgStr "interpolate")) Demo.one_det)
              [] [] [] [] None None None) = false.
Proof.
  apply (forward_train_with_mask_head_needs_an_image
           (Demo.standard (Some (CfgStr "interpolate")) Demo.one_det)).
  reflexivity.
Defined.

(** X7.  When [forward_train] returns with the RPN enabled, [test_cfg.rpn]
    exists, and the RPN proposals were decoded once, with
    [train_cfg.rpn_proposal] when that key exists and with [test_cfg.rpn]
    otherwise; [test_cfg.rpn] is looked up in both cases. *)
Theorem forward_train_decodes_proposals_with_the_proposal_cfg
    (self : Detector) img img_meta gt_bboxes gt_labels gt_bboxes_ignore
    gt_masks proposals (losses : LossDict) (tr : list Event) :
  forward_train self img img_meta gt_bboxes gt_labels gt_bboxes_ignore
                gt_masks proposals = (inr losses, tr) ->
  with_rpn self = true ->
  exists test_rpn proposal_cfg,
    getattr (test_cfg self) "rpn" = inr test_rpn /\
    cfg_get (train_cfg self) "rpn_proposal" test_rpn = inr proposal_cfg /\
    rpn_decode_cfgs tr = [proposal_cfg].
Proof.
  intros Hrun.
  destruct (train_outcome _ _ _ (forward_train_requirements self img
              img_meta gt_bboxes gt_labels gt_bboxes_ignore gt_masks
              proposals) Hrun) as (_ & _ & _ & Hrpn).
  exact Hrpn.
Qed.

Lemma forward_train_decodes_proposals_with_the_proposal_cfg_witness :
  exists losses tr,
    Demo.train (Demo.standard (Some (CfgStr "interpolate")) Demo.one_det)
    = (inr losses, tr) /\
    exists test_rpn proposal_cfg,
      getattr (Demo.cfg (Some (CfgStr "interpolate")) []) "rpn"
      = inr test_rpn /\
      cfg_get (Demo.cfg (Some (CfgStr "interpolate")) []) "rpn_proposal"
              test_rpn = inr proposal_cfg /\
      rpn_decode_cfgs tr = [proposal_cfg].
Proof.
  destruct (returned_inv _ demo_train_returned) as (losses & tr & Hrun).
  exists losses, tr. split; [exact Hrun|].
  exact (forward_train_decodes_proposals_with_the_proposal_cfg
           (Demo.standard (Some (CfgStr "interpolate")) Demo.one_det)
           Demo.img [Demo.meta] [[Demo.box_a]] [[1%Z]] None
           (Some [[[[one]]]]) None losses tr Hrun eq_refl).
Defined.

(** X8.  When [forward_train] returns with the mask head enabled: with
    ['resample'] the RoI extractors are separate, nothing is resized, and
    the box-RoI extractor was last called on the RoIs the mask-RoI
    extractor was called on, its output being the features of the
    refinement head; with any other policy value the value is
    ['interpolate'], the box-RoI extractor was called by the box stage
    only, and the features the mask head was called on, resized to 7 x 7,
    are the features of the refinement head. *)
Theorem forward_train_refinement_features
    (self : Detector) img img_meta gt_bboxes gt_labels gt_bboxes_ignore
    gt_masks proposals (losses : LossDict) (tr : list Event) policy :
  forward_train self img img_meta gt_bboxes gt_labels gt_bboxes_ignore
                gt_masks proposals = (inr losses, tr) ->
  with_mask self = true ->
  policy_of (train_cfg self) = inr policy ->
  (cfg_eq_str policy "resample" = true ->
     share_roi_extractor self = false /\
     interpolate_calls tr = [] /\
     exists rois,
       mask_roi_calls tr = [rois] /\
       last (bbox_roi_calls tr) = Some rois /\
       refinement_feats tr
       = [roi_forward (bbox_roi_extractor self)
            (take (num_inputs (bbox_roi_extractor self))
                  (extract_feat self img)) rois]) /\
  (cfg_eq_str policy "resample" = false ->
     cfg_eq_str policy "interpolate" = true /\
     length (bbox_roi_calls tr) = (if with_bbox self then 1%nat else 0%nat) /\
     exists mask_feats,
       mask_head_inputs tr = [mask_feats] /\
       interpolate_calls tr = [(mask_feats, (7, 7)%nat)] /\
       refinement_feats tr = [F_interpolate self mask_feats (7, 7)%nat]).
Proof.
  intros Hrun Hmask Hpol.
  exact (train_outcome _ _ _ (forward_train_policy self img img_meta
           gt_bboxes gt_labels gt_bboxes_ignore gt_masks proposals) Hrun
           Hmask policy Hpol).
Qed.

Lemma forward_train_refinement_features_witness :
  exists losses tr,
    Demo.train (Demo.standard (Some (CfgStr "interpolate")) Demo.one_det)
    = (inr losses, tr) /\
    length (bbox_roi_calls tr) = 1%nat /\
    exists mask_feats,
      mask_head_inputs tr = [mask_feats] /\
      interpolate_calls tr = [(mask_feats, (7, 7)%nat)].
Proof.
  destruct (returned_inv _ demo_train_returned) as (losses & tr & Hrun).
  exists losses, tr. split; [exact Hrun|].
  destruct (forward_train_refinement_features
              (Demo.standard (Some (CfgStr "interpolate")) Demo.one_det)
              Demo.img [Demo.meta] [[Demo.box_a]] [[1%Z]] None
              (Some [[[[one]]]]) None losses tr (CfgStr "interpolate")
              Hrun eq_refl eq_refl) as [_ Hint].
  destruct (Hint eq_refl) as (_ & Hlen & mf & Hmh & Hic & _).
  split; [exact Hlen|]. exists mf. split; [exact Hmh | exact Hic].
Defined.

(** The configuration entries a returned training step has read. *)
Ltac same_lookups :=
  repeat match goal with
  | H : getattr ?c ?k = inr ?v, H' : getattr ?c ?k = inr ?w |- _ =>
      assert (w = v) by congruence; subst w; clear H'
  | H : as_scalar ?c = inr _ |- _ =>
      destruct c; simpl in H; try discriminate H; injection H as <-
  end.

Lemma forward_train_cfg_keys self img img_meta gt_bboxes gt_labels
    gt_bboxes_ignore gt_masks proposals :
  outcome (forward_train self img img_meta gt_bboxes gt_labels
                         gt_bboxes_ignore gt_masks proposals)
          (train_cfg_keys self).
Proof.
  unfold forward_train.
  destruct (with_rpn self) eqn:Hrpn, (with_bbox self) eqn:Hbbox,
           (with_mask self) eqn:Hmask; simpl orb.
  all: walk_train.
  all: unfold train_cfg_keys, policy_of, threshold_of; tidy; same_lookups.
  all: rewrite ?Hrpn, ?Hbbox, ?Hmask; simpl orb.
  all: repeat match goal with |- _ /\ _ => split end.
  all: try (intros; discriminate).
  all: intros _; repeat match goal with |- _ /\ _ => split end.
  all: repeat match goal with
       | H : getattr _ _ = inr _ |- _ => rewrite H
       end.
  all: first
    [ eexists; reflexivity
    | eexists; eassumption
    | eexists _, _, _; repeat split; first [reflexivity | eassumption] ].
Qed.

(** X9.  A returned training step found every configuration entry it
    reads: [train_cfg.rpn] with the RPN enabled; [train_cfg.rcnn] with its
    [assigner] and [sampler] with a box or mask head; and with the mask
    head [test_cfg.rcnn], which is what the mask loss is given, a
    [refine_sample] entry and a number at [mask_thr_binary] in
    [train_cfg.rcnn]. *)
Theorem forward_train_reads_its_configuration
    (self : Detector) img img_meta gt_bboxes gt_labels gt_bboxes_ignore
    gt_masks proposals (losses : LossDict) (tr : list Event) :
  forward_train self img img_meta gt_bboxes gt_labels gt_bboxes_ignore
                gt_masks proposals = (inr losses, tr) ->
  (with_rpn self = true ->
     exists rpn, getattr (train_cfg self) "rpn" = inr rpn) /\
  (with_bbox self || with_mask self = true ->
     exists rcnn assigner sampler,
       getattr (train_cfg self) "rcnn" = inr rcnn /\
       getattr rcnn "assigner" = inr assigner /\
       getattr rcnn "sampler" = inr sampler) /\
  (with_mask self = true ->
     (exists test_rcnn, getattr (test_cfg self) "rcnn" = inr test_rcnn) /\
     (exists policy, policy_of (train_cfg self) = inr policy) /\
     (exists thr, threshold_of (train_cfg self) = inr (CfgFloat thr))).
Proof.
  intros Hrun.
  exact (train_outcome _ _ _ (forward_train_cfg_keys self img img_meta
           gt_bboxes gt_labels gt_bboxes_ignore gt_masks proposals) Hrun).
Qed.

Lemma forward_train_reads_its_configuration_witness :
  exists losses tr,
    Demo.train (Demo.standard (Some (CfgStr "interpolate")) Demo.one_det)
    = (inr losses, tr) /\
    exists test_rcnn,
      getattr (Demo.cfg (Some (CfgStr "interpolate")) []) "rcnn"
      = inr test_rcnn.
Proof.
  destruct (returned_inv _ demo_train_returned) as (losses & tr & Hrun).
  exists losses, tr. split; [exact Hrun|].
  exact (proj1 (proj2 (proj2 (forward_train_reads_its_configuration
           (Demo.standard (Some (CfgStr "interpolate")) Demo.one_det)
           Demo.img [Demo.meta] [[Demo.box_a]] [[1%Z]] None
           (Some [[[[one]]]]) None losses tr Hrun)) eq_refl)).
Defined.

(* ===================================================================== *)
(** ** The loss mapping of [forward_train] *)
(* ===================================================================== *)

Lemma bbox_head_inputs_app tr1 tr2 :
  bbox_head_inputs (tr1 ++ tr2) = bbox_head_inputs tr1 ++ bbox_head_inputs tr2.
Proof. apply omap_app. Qed.

Lemma bbox_head_inputs_sampling tr :
  Forall sampling_event tr -> bbox_head_inputs tr = [].
Proof. apply omap_sampling. intros []; simpl; tauto. Qed.

(** Name the two outputs of a head by the call that made them. *)
Ltac name_outputs :=
  repeat match goal with
  | H : ?f = (?a, ?b) |- _ =>
      is_var a; is_var b;
      let Ha := fresh in let Hb := fresh in
      assert (Ha : a = f.1) by (rewrite H; reflexivity);
      assert (Hb : b = f.2) by (rewrite H; reflexivity);
      clear H; subst a b
  end.

Lemma forward_train_enabled_stage_losses self img img_meta gt_bboxes gt_labels
    gt_bboxes_ignore gt_masks proposals :
  outcome (forward_train self img img_meta gt_bboxes gt_labels
                         gt_bboxes_ignore gt_masks proposals)
          (enabled_stage_losses self img img_meta gt_bboxes gt_labels
                                gt_bboxes_ignore gt_masks).
Proof.
  unfold forward_train.
  destruct (with_rpn self) eqn:Hrpn, (with_bbox self) eqn:Hbbox,
           (with_mask self) eqn:Hmask; simpl orb.
  all: walk_train.
  all: unfold enabled_stage_losses; tidy; same_lookups; name_outputs.
  all: first [ match goal with l : list SamplingResult |- _ => exists l end
             | exists [] ].
  all: eexists _, _, _, _.
  all: unfold rpn_stage_loss, bbox_stage_loss, mask_stage_losses.
  all: repeat match goal with
       | H : Forall sampling_event _ |- _ =>
           rewrite ?bbox_head_inputs_app, ?refinement_calls_app,
             ?(bbox_head_inputs_sampling _ H), ?(refinement_calls_sampling _ H)
       end.
  all: summarize_all.
  all: rewrite ?bbox_head_inputs_app, ?refinement_calls_app; simpl.
  all: rewrite ?Hrpn, ?Hbbox, ?Hmask; simpl.
  all: split;
         [repeat first [apply Forall_nil_2 | apply Forall_cons_2; [reflexivity|]]|].
  all: split;
         [first [reflexivity | eexists; split; [eassumption | reflexivity]]|].
  all: split;
         [first [ reflexivity
                | eexists _, _; split;
                  [reflexivity | split; [eassumption | reflexivity]] ]|].
  all: split;
         [first [ repeat split; reflexivity
                | eexists _, _, _, _, _, _; repeat split;
                  first [reflexivity | eassumption] ]|].
  all: split; [reflexivity|].
  all: split; [rewrite ?map_union_empty, ?map_empty_union; reflexivity|].
  all: rewrite ?dom_union_L, ?dom_empty_L; set_solver.
Qed.

(** C6.  When [forward_train] returns a loss mapping, it is made of the
    mappings that the [loss] methods of the enabled stages return, and of
    nothing else: the RPN loss on the RPN outputs, the box loss on the
    outputs and targets of the box head, the mask loss on the mask
    prediction and its targets, the refinement loss on the outputs and
    targets of the refinement head, each computed once, in this order, on
    the sampling results of the run.  Its keys are exactly the keys of
    these mappings; a disabled stage computes no loss and adds no key; and
    when the mask head is disabled the refinement head is not called. *)
Theorem forward_train_returns_losses_of_enabled_stages
    (self : Detector) img img_meta gt_bboxes gt_labels gt_bboxes_ignore
    gt_masks proposals (losses : LossDict) (tr : list Event) :
  forward_train self img img_meta gt_bboxes gt_labels gt_bboxes_ignore
                gt_masks proposals = (inr losses, tr) ->
  exists (srs : list SamplingResult) (d_rpn d_bbox d_mask d_refine : LossDict),
    Forall (fun given => given = srs) (target_inputs tr) /\
    rpn_stage_loss self img img_meta gt_bboxes gt_bboxes_ignore d_rpn /\
    bbox_stage_loss self gt_bboxes gt_labels srs tr d_bbox /\
    mask_stage_losses self gt_bboxes gt_labels gt_masks srs tr
                      d_mask d_refine /\
    loss_events tr
    = List.filter (fun sd : Stage * LossDict => stage_enabled self sd.1)
        [(StRpn, d_rpn); (StBbox, d_bbox); (StMask, d_mask);
         (StRefine, d_refine)] /\
    losses = d_refine ∪ (d_mask ∪ (d_bbox ∪ d_rpn)) /\
    dom losses =@{gset string}
      dom d_rpn ∪ dom d_bbox ∪ dom d_mask ∪ dom d_refine.
Proof.
  intros Hrun.
  exact (train_outcome _ _ _ (forward_train_enabled_stage_losses self img
           img_meta gt_bboxes gt_labels gt_bboxes_ignore gt_masks proposals)
           Hrun).
Qed.

Lemma forward_train_returns_losses_of_enabled_stages_witness :
  exists losses tr,
    Demo.train (Demo.standard (Some (CfgStr "interpolate")) Demo.one_det)
    = (inr losses, tr) /\
    map fst (loss_events tr) = [StRpn; StBbox; StMask; StRefine] /\
    exists d_rpn d_bbox d_mask d_refine : LossDict,
      dom losses =@{gset string}
        dom d_rpn ∪ dom d_bbox ∪ dom d_mask ∪ dom d_refine.
Proof.
  destruct (returned_inv _ demo_train_returned) as (losses & tr & Hrun).
  exists losses, tr. split; [exact Hrun|].
  destruct (forward_train_returns_losses_of_enabled_stages
              (Demo.standard (Some (CfgStr "interpolate")) Demo.one_det)
              Demo.img [Demo.meta] [[Demo.box_a]] [[1%Z]] None
              (Some [[[[one]]]]) None losses tr Hrun)
    as (srs & d_rpn & d_bbox & d_mask & d_refine
        & _ & _ & _ & _ & Hev & _ & Hdom).
  split.
  - rewrite Hev. reflexivity.
  - exists d_rpn, d_bbox, d_mask, d_refine. exact Hdom.
Defined.

(* ===================================================================== *)
(** ** Properties of inference *)
(* ===================================================================== *)

(** X10.  [refine_test_bboxes] returns only if
    [self.test_cfg.rcnn.refine_sample] is ['resample'] or ['interpolate'],
    [rcnn_test_cfg.rcnn.mask_thr_binary] is a number and [img_meta] is not
    empty; with a missing key, another policy value or no image meta data
    it raises. *)
Theorem refine_test_bboxes_returns_only_if_ready
    (self : Detector) x img_meta proposals rcnn_test_cfg rescale :
  returned (refine_test_bboxes self x img_meta proposals rcnn_test_cfg rescale)
  = true ->
  refine_ready self rcnn_test_cfg img_meta.
Proof.
  pose proof (refine_test_bboxes_ready self x img_meta proposals
                rcnn_test_cfg rescale) as H.
  unfold outcome in H.
  destruct (refine_test_bboxes _ _ _ _ _ _) as [r tr]. apply H.
Qed.

Lemma refine_test_bboxes_returns_only_if_ready_witness :
  refine_ready (Demo.nested (Some (CfgStr "resample")) Demo.one_det)
    (Demo.rcnn_cfg (Some (CfgStr "resample"))
       [("rcnn", CfgDict [("mask_thr_binary", CfgFloat half)])])
    [Demo.meta].
Proof.
  apply (refine_test_bboxes_returns_only_if_ready
           (Demo.nested (Some (CfgStr "resample")) Demo.one_det)
           Demo.feats [Demo.meta] (BoxTensor Demo.one_det.1)
           (Demo.rcnn_cfg (Some (CfgStr "resample"))
              [("rcnn", CfgDict [("mask_thr_binary", CfgFloat half)])])
           false).
  vm_compute. reflexivity.
Defined.

(** X11.  When [refine_test_bboxes] returns, it has called the mask-RoI
    extractor once, on the RoIs of the given boxes, and the mask head
    once, on the pooled features as they are (the shared head is applied
    to the features of the refinement head only).  With ['resample'] it has
    called the box-RoI extractor on the same RoIs and resized nothing; with
    ['interpolate'] it has not called the box-RoI extractor and has resized
    the pooled mask features to 7 x 7. *)
Theorem refine_test_bboxes_pools_from_the_same_rois
    (self : Detector) x img_meta proposals rcnn_test_cfg rescale :
  let m := refine_test_bboxes self x img_meta proposals rcnn_test_cfg rescale in
  returned m = true ->
  test_policy self x proposals m.2.
Proof.
  intros m _.
  exact (refine_test_bboxes_policy self x img_meta proposals rcnn_test_cfg
                                   rescale).
Qed.

Lemma refine_test_bboxes_pools_from_the_same_rois_witness :
  test_policy (Demo.nested (Some (CfgStr "interpolate")) Demo.one_det)
    Demo.feats (BoxTensor Demo.one_det.1)
    (refine_test_bboxes
       (Demo.nested (Some (CfgStr "interpolate")) Demo.one_det)
       Demo.feats [Demo.meta] (BoxTensor Demo.one_det.1)
       (Demo.rcnn_cfg (Some (CfgStr "interpolate"))
          [("rcnn", CfgDict [("mask_thr_binary", CfgFloat half)])])
       false).2.
Proof.
  apply (refine_test_bboxes_pools_from_the_same_rois
           (Demo.nested (Some (CfgStr "interpolate")) Demo.one_det)
           Demo.feats [Demo.meta] (BoxTensor Demo.one_det.1)
           (Demo.rcnn_cfg (Some (CfgStr "interpolate"))
              [("rcnn", CfgDict [("mask_thr_binary", CfgFloat half)])])
           false).
  vm_compute. reflexivity.
Defined.

(** X12.  [simple_test_mask] raises an index error, before any call, when
    [img_meta] is empty.  Otherwise, on zero detections it returns one
    empty list per foreground class without any call; on at least one
    detection, when it returns, it has called the mask-RoI extractor and
    the mask head once, on the RoIs of the detections (their four
    coordinates times the scale factor when [rescale] is set), and its last
    call is [get_seg_masks] on those boxes. *)
Theorem simple_test_mask_by_cases
    (self : Detector) x img_meta det_bboxes det_labels rescale :
  let m := simple_test_mask self x img_meta det_bboxes det_labels rescale in
  (img_meta = [] -> exists e, m = (inl e, []) /\ lookup_error e) /\
  (forall meta metas, img_meta = meta :: metas ->
     (det_bboxes = [] ->
        m = (inr (replicate (Z.to_nat (mask_head_num_classes self - 1)) []),
             [])) /\
     (det_bboxes <> [] -> returned m = true ->
        let boxes := seg_boxes (scale_factor meta) rescale det_bboxes in
        mask_roi_calls m.2 = [bbox2roi self (BoxList [boxes])] /\
        length (mask_head_inputs m.2) = 1%nat /\
        exists mask_pred, last m.2 = Some (EvGetSegMasks mask_pred boxes))).
Proof.
  cbv zeta.
  destruct (simple_test_mask_cases self x img_meta det_bboxes det_labels
                                   rescale) as [Hnil Hcons].
  split; [exact Hnil|].
  intros meta metas Hmeta.
  destruct (Hcons meta metas Hmeta) as [Hzero Hsome].
  split; [exact Hzero|].
  intros Hdet Hret.
  destruct (Hsome Hdet) as (Hrois & Hhead & Hlast).
  split; [exact Hrois | split; [exact Hhead | exact (Hlast Hret)]].
Qed.

Lemma simple_test_mask_by_cases_witness :
  let d := Demo.standard (Some (CfgStr "resample")) Demo.one_det in
  simple_test_mask d Demo.feats [Demo.meta] [] [] true = (inr [[]; []], []) /\
  length (mask_head_inputs
            (simple_test_mask d Demo.feats [Demo.meta] [Demo.box_a] [0%Z]
                              true).2) = 1%nat.
Proof.
  intros d. split.
  - exact (proj1 (proj2 (simple_test_mask_by_cases
                           d Demo.feats [Demo.meta] [] [] true)
                        Demo.meta [] eq_refl) eq_refl).
  - refine (proj1 (proj2 (proj2 (proj2 (simple_test_mask_by_cases
                             d Demo.feats [Demo.meta] [Demo.box_a] [0%Z] true)
                          Demo.meta [] eq_refl) _ _))).
    + discriminate.
    + vm_compute. reflexivity.
Defined.

(** X13.  Without a box head [simple_test] raises its assertion error
    before anything is called; with a box head the first call of every run
    is the feature extraction. *)
Theorem simple_test_asserts_the_box_head
    (self : Detector) img img_meta proposals rescale :
  let m := simple_test self img img_meta proposals rescale in
  (with_bbox self = false -> exists msg, m = (inl (AssertionError msg), [])) /\
  (with_bbox self = true -> exists tr', m.2 = EvExtractFeat img :: tr').
Proof.
  cbv zeta.
  destruct (simple_test_protocol self img img_meta proposals rescale)
    as (_ & Ha & Hn & Hf & _).
  split; [|exact Hf].
  intros Hbbox. destruct (proj2 Ha Hbbox) as [msg Hmsg]. exists msg.
  specialize (Hn Hbbox).
  rewrite (surjective_pairing (simple_test self img img_meta proposals rescale)).
  f_equal; assumption.
Qed.

Lemma simple_test_asserts_the_box_head_witness :
  let d := Demo.detector (Demo.cfg (Some (CfgStr "resample")) [])
                         (Demo.cfg (Some (CfgStr "resample")) [])
                         true false true false false Demo.one_det in
  exists msg, Demo.test d = (inl (AssertionError msg), []).
Proof.
  intros d.
  apply (proj1 (simple_test_asserts_the_box_head d Demo.img [Demo.meta]
                                                 None false)).
  reflexivity.
Defined.

(** X14.  The stages of every run of [simple_test] come in the order
    feature extraction, proposal stage (skipped when proposals are given),
    first-pass box stage, refinement head, box decoding, segmentation
    decoding, each at most once; when it returns the box decoding has run,
    and the result holds a segmentation exactly when the detector has a
    mask head. *)
Theorem simple_test_runs_its_stages_in_order
    (self : Detector) img img_meta proposals rescale :
  let m := simple_test self img img_meta proposals rescale in
  test_stages m.2 `prefix_of` test_stage_order proposals /\
  (forall res, m.1 = inr res ->
     In TsDecode (test_stages m.2) /\
     (is_Some res.2 <-> with_mask self = true)).
Proof.
  cbv zeta.
  destruct (simple_test_protocol self img img_meta proposals rescale)
    as (Ho & _ & _ & _ & Hr).
  split; [exact Ho | exact Hr].
Qed.

Lemma simple_test_runs_its_stages_in_order_witness :
  let m := Demo.test (Demo.nested (Some (CfgStr "interpolate")) Demo.one_det) in
  returned m = true /\
  test_stages m.2 `prefix_of` test_stage_order None /\
  In TsDecode (test_stages m.2).
Proof.
  intros m.
  destruct (simple_test_runs_its_stages_in_order
              (Demo.nested (Some (CfgStr "interpolate")) Demo.one_det)
              Demo.img [Demo.meta] None false) as [Ho Hr].
  assert (Hret : returned m = true) by (vm_compute; reflexivity).
  split; [exact Hret|]. split; [exact Ho|].
  destruct (returned_inv _ Hret) as (res & tr & Hm).
  exact (proj1 (Hr res (f_equal fst Hm))).
Defined.

Lemma decode_calls_app tr1 tr2 :
  decode_calls (tr1 ++ tr2) = decode_calls tr1 ++ decode_calls tr2.
Proof. apply omap_app. Qed.

Lemma simple_test_data_flow self img img_meta proposals rescale :
  outcome (simple_test self img img_meta proposals rescale)
          (test_data_flow self img img_meta proposals rescale).
Proof.
  unfold simple_test.
  destruct (with_bbox self) eqn:Hbbox, (with_mask self) eqn:Hmask; simpl negb;
    cbv iota; unfold refine_test_bboxes, simple_test_mask.
  all: repeat run_step.
  all: try exact I.
  all: unfold test_data_flow; cbv zeta; tidy; same_lookups.
  all: rewrite ?decode_calls_app, ?mask_roi_calls_app; simpl.
  all: eexists _, _; split; [eassumption|].
  all: (split; [first [reflexivity | eexists; split; [eassumption|reflexivity]]|]).
  all: repeat match goal with
       | H : simple_test_bboxes _ _ _ _ _ _ = _ |- _ => rewrite H
       end; simpl; split; reflexivity.
Qed.

(** X15.  When [simple_test] returns, the first pass ran on the given
    proposals, or on those of [simple_test_rpn] with [test_cfg.rpn]; the
    refinement pass pooled from the boxes of the first pass as they were
    returned, without scaling them back when [rescale] is set; and the
    refined boxes were decoded once, from those RoIs, with [test_cfg.rcnn]
    and the same [rescale] flag. *)
Theorem simple_test_refines_the_first_pass_boxes
    (self : Detector) img img_meta proposals rescale res tr :
  simple_test self img img_meta proposals rescale = (inr res, tr) ->
  let x := extract_feat self img in
  exists rcnn proposal_list,
    getattr (test_cfg self) "rcnn" = inr rcnn /\
    match proposals with
    | Some p => proposal_list = p
    | None =>
        exists rpn_cfg,
          getattr (test_cfg self) "rpn" = inr rpn_cfg /\
          proposal_list = simple_test_rpn self x img_meta rpn_cfg
    end /\
    let first_pass :=
      simple_test_bboxes self x img_meta proposal_list rcnn rescale in
    let rois := bbox2roi self (BoxTensor first_pass.1) in
    head (mask_roi_calls tr) = Some rois /\
    decode_calls tr = [(rois, rcnn, rescale)].
Proof.
  intros Hrun.
  pose proof (simple_test_data_flow self img img_meta proposals rescale) as H.
  unfold outcome in H. rewrite Hrun in H. exact H.
Qed.

Lemma simple_test_refines_the_first_pass_boxes_witness :
  exists res tr,
    Demo.test (Demo.nested (Some (CfgStr "interpolate")) Demo.one_det)
    = (inr res, tr) /\
    length (decode_calls tr) = 1%nat.
Proof.
  assert (Hret : returned (Demo.test (Demo.nested (Some (CfgStr "interpolate"))
                                                  Demo.one_det)) = true)
    by (vm_compute; reflexivity).
  destruct (returned_inv _ Hret) as (res & tr & Hrun).
  exists res, tr. split; [exact Hrun|].
  destruct (simple_test_refines_the_first_pass_boxes
              (Demo.nested (Some (CfgStr "interpolate")) Demo.one_det)
              Demo.img [Demo.meta] None false res tr Hrun)
    as (rcnn & pl & _ & _ & _ & Hdec).
  rewrite Hdec. reflexivity.
Defined.

(* ===================================================================== *)
(** ** Shape and edge behaviour of the binarization *)
(* ===================================================================== *)

Lemma shape4_tmap4 (f : f32 -> f32) (t : Tensor4) :
  shape4 (tmap4 f t) = shape4 t.
Proof.
  unfold shape4, tmap4. rewrite map_map. apply map_ext. intros r.
  rewrite map_map. apply map_ext. intros c.
  rewrite map_map. apply map_ext. intros w. apply length_map.
Qed.

Lemma shape4_drop_background (t : Tensor4) :
  shape4 (drop_background t) = map (drop 1) (shape4 t).
Proof.
  unfold shape4, drop_background. rewrite !map_map. apply map_ext. intros r.
  destruct r; reflexivity.
Qed.

(** X16.  The hard mask given to the refinement head has the shape of the
    mask prediction without its channel 0: binarization keeps the number
    of regions, channels, rows and columns, and dropping the background
    removes the first channel of every region (nothing from a region
    without channels). *)
Theorem hard_mask_has_the_shape_of_the_foreground_channels
    (thr : f32) (mask_pred : Tensor4) :
  shape4 (binarize_ge thr (drop_background mask_pred))
  = map (drop 1) (shape4 mask_pred) /\
  shape4 (binarize_gt thr (drop_background mask_pred))
  = map (drop 1) (shape4 mask_pred).
Proof.
  unfold binarize_ge, binarize_gt.
  rewrite !shape4_tmap4, shape4_drop_background. split; reflexivity.
Qed.

(** X17.  A NaN never becomes foreground: with a NaN threshold both
    binarizations give an all-background mask, and at every threshold a
    NaN entry of a mask prediction, whatever the other entries are, is
    sent to 0.0 by both. *)
Theorem nan_is_never_foreground (thr : f32) (t : Tensor4) :
  all4 (fun v => v = zero) (binarize_ge S754_nan t) /\
  all4 (fun v => v = zero) (binarize_gt S754_nan t) /\
  (forall i j k l,
     entry4 t i j k l = Some S754_nan ->
     entry4 (binarize_ge thr t) i j k l = Some zero /\
     entry4 (binarize_gt thr t) i j k l = Some zero).
Proof.
  split; [|split].
  - apply tmap4_all4. intros v. destruct v; reflexivity.
  - apply tmap4_all4. intros v. destruct v; reflexivity.
  - intros i j k l Hnan. unfold binarize_ge, binarize_gt.
    rewrite !entry4_tmap4, Hnan. destruct thr; split; reflexivity.
Qed.

Lemma nan_is_never_foreground_witness :
  let t : Tensor4 := [[[[one; S754_nan]; [S754_nan; zero]]]] in
  entry4 (binarize_ge half t) 0 0 0 1 = Some zero /\
  entry4 (binarize_gt half t) 0 0 1 0 = Some zero.
Proof.
  intros t.
  pose proof (proj2 (proj2 (nan_is_never_foreground half t))) as H.
  split.
  - exact (proj1 (H 0 0 0 1 eq_refl)%nat).
  - exact (proj2 (H 0 0 1 0 eq_refl)%nat).
Defined.
